(** * win-spout: the Spout2 capture source of OBS Studio

    A shallow embedding of [win-spout.cpp] and the properties of its
    discovery-and-binding state machine.

    The plugin keeps one [struct win_spout] per source instance.  The host
    (OBS) drives it through the callbacks registered in [obs_module_load]:
    create, destroy, update, show, hide, video_tick, video_render,
    get_width and get_height.  Every callback receives the instance as
    [void *data] and mutates it in place; here each callback is a
    computation in a small state monad over the instance, which also
    collects the calls made to the outside (the Spout library and the
    graphics subsystem) and can stop on one of the two undefined
    behaviours the C++ code is exposed to.  The logging macros ([info],
    [warn], [debug]) touch nothing of the instance and are left out. *)

From Stdlib Require Import ZArith Lia.
From stdpp Require Import base strings gmap list.

Local Open Scope Z_scope.

(** ** Machine data *)

(** Pointers and handles are addresses; only the comparison with [NULL]
    matters to the code. *)
Definition NULL : Z := 0.

(** [DWORD], [uint32_t] and [unsigned int] are 32 bits wide and wrap. *)
Definition to_uint32 (z : Z) : Z := z mod 2 ^ 32.

(** [int] is 32 bits wide, two's complement. *)
Definition to_int (z : Z) : Z := (z + 2 ^ 31) mod 2 ^ 32 - 2 ^ 31.

Arguments to_uint32 : simpl never.
Arguments to_int : simpl never.

(** Capacity of [char senderName[256]], terminator included. *)
Definition SENDER_NAME_SIZE : nat := 256.

(** A text fits the buffer when its characters and the terminator do. *)
Definition fits_senderName (s : string) : bool :=
  (String.length s <? SENDER_NAME_SIZE)%nat.

Arguments fits_senderName : simpl never.

(** ** The instance: [struct win_spout]

    [senderName] holds the characters of the buffer before the terminator. *)
Record win_spout := Build_win_spout {
  source : Z;
  senderName : string;
  useFirstSender : bool;
  texture : Z;
  dxHandle : Z;
  dxFormat : Z;
  spoutptr : Z;
  lastCheckTick : Z;
  width : Z;
  height : Z;
  initialized : bool;
  active : bool;
}.

(** What [bzalloc(sizeof(win_spout))] hands out: every byte is zero. *)
Definition bzalloc_win_spout : win_spout :=
  {| source := NULL; senderName := ""; useFirstSender := false;
     texture := NULL; dxHandle := NULL; dxFormat := 0; spoutptr := NULL;
     lastCheckTick := 0; width := 0; height := 0;
     initialized := false; active := false |}.

(** Field assignments [context->f = v]. *)
Definition set_source (v : Z) (c : win_spout) : win_spout :=
  {| source := v; senderName := senderName c;
     useFirstSender := useFirstSender c; texture := texture c;
     dxHandle := dxHandle c; dxFormat := dxFormat c; spoutptr := spoutptr c;
     lastCheckTick := lastCheckTick c; width := width c; height := height c;
     initialized := initialized c; active := active c |}.

Definition set_senderName (v : string) (c : win_spout) : win_spout :=
  {| source := source c; senderName := v;
     useFirstSender := useFirstSender c; texture := texture c;
     dxHandle := dxHandle c; dxFormat := dxFormat c; spoutptr := spoutptr c;
     lastCheckTick := lastCheckTick c; width := width c; height := height c;
     initialized := initialized c; active := active c |}.

Definition set_useFirstSender (v : bool) (c : win_spout) : win_spout :=
  {| source := source c; senderName := senderName c;
     useFirstSender := v; texture := texture c;
     dxHandle := dxHandle c; dxFormat := dxFormat c; spoutptr := spoutptr c;
     lastCheckTick := lastCheckTick c; width := width c; height := height c;
     initialized := initialized c; active := active c |}.

Definition set_texture (v : Z) (c : win_spout) : win_spout :=
  {| source := source c; senderName := senderName c;
     useFirstSender := useFirstSender c; texture := v;
     dxHandle := dxHandle c; dxFormat := dxFormat c; spoutptr := spoutptr c;
     lastCheckTick := lastCheckTick c; width := width c; height := height c;
     initialized := initialized c; active := active c |}.

Definition set_dxHandle (v : Z) (c : win_spout) : win_spout :=
  {| source := source c; senderName := senderName c;
     useFirstSender := useFirstSender c; texture := texture c;
     dxHandle := v; dxFormat := dxFormat c; spoutptr := spoutptr c;
     lastCheckTick := lastCheckTick c; width := width c; height := height c;
     initialized := initialized c; active := active c |}.

Definition set_dxFormat (v : Z) (c : win_spout) : win_spout :=
  {| source := source c; senderName := senderName c;
     useFirstSender := useFirstSender c; texture := texture c;
     dxHandle := dxHandle c; dxFormat := v; spoutptr := spoutptr c;
     lastCheckTick := lastCheckTick c; width := width c; height := height c;
     initialized := initialized c; active := active c |}.

Definition set_spoutptr (v : Z) (c : win_spout) : win_spout :=
  {| source := source c; senderName := senderName c;
     useFirstSender := useFirstSender c; texture := texture c;
     dxHandle := dxHandle c; dxFormat := dxFormat c; spoutptr := v;
     lastCheckTick := lastCheckTick c; width := width c; height := height c;
     initialized := initialized c; active := active c |}.

Definition set_width (v : Z) (c : win_spout) : win_spout :=
  {| source := source c; senderName := senderName c;
     useFirstSender := useFirstSender c; texture := texture c;
     dxHandle := dxHandle c; dxFormat := dxFormat c; spoutptr := spoutptr c;
     lastCheckTick := lastCheckTick c; width := v; height := height c;
     initialized := initialized c; active := active c |}.

Definition set_height (v : Z) (c : win_spout) : win_spout :=
  {| source := source c; senderName := senderName c;
     useFirstSender := useFirstSender c; texture := texture c;
     dxHandle := dxHandle c; dxFormat := dxFormat c; spoutptr := spoutptr c;
     lastCheckTick := lastCheckTick c; width := width c; height := v;
     initialized := initialized c; active := active c |}.

Definition set_initialized (v : bool) (c : win_spout) : win_spout :=
  {| source := source c; senderName := senderName c;
     useFirstSender := useFirstSender c; texture := texture c;
     dxHandle := dxHandle c; dxFormat := dxFormat c; spoutptr := spoutptr c;
     lastCheckTick := lastCheckTick c; width := width c; height := height c;
     initialized := v; active := active c |}.

Definition set_active (v : bool) (c : win_spout) : win_spout :=
  {| source := source c; senderName := senderName c;
     useFirstSender := useFirstSender c; texture := texture c;
     dxHandle := dxHandle c; dxFormat := dxFormat c; spoutptr := spoutptr c;
     lastCheckTick := lastCheckTick c; width := width c; height := height c;
     initialized := initialized c; active := v |}.

(** ** The host settings object: [obs_data_t]

    A keyed store of typed items.  A getter applied to a key that is absent,
    or that holds an item of another type, yields the zero of its type. *)
Inductive obs_item :=
  | obs_bool (b : bool)
  | obs_string (s : string).

Abbreviation obs_data_t := (gmap string obs_item).

Definition obs_data_get_bool (d : obs_data_t) (name : string) : bool :=
  match d !! name with Some (obs_bool b) => b | _ => false end.

Definition obs_data_get_string (d : obs_data_t) (name : string) : string :=
  match d !! name with Some (obs_string s) => s | _ => "" end.

Definition obs_data_set_bool (d : obs_data_t) (name : string) (b : bool)
  : obs_data_t := <[name := obs_bool b]> d.

Definition obs_data_set_string (d : obs_data_t) (name : string) (s : string)
  : obs_data_t := <[name := obs_string s]> d.

Definition CUSTOM_SPOUT_NAME : string := "customspoutname".
Definition USE_FIRST_AVAILABLE_SENDER : string := "usefirstavailablesender".
Definition SPOUT_SENDER_LIST : string := "spoutsenders".

(** ** The outside world

    The Spout library ([Include/SpoutLibrary.h]) and OBS are external.  A
    [host] fixes what they answer during one callback.  A sender name handed
    out by the library fits the 256 bytes that [GetSenderName] is given
    ([MaxSize = 256], "default for spout SDK"). *)
Record sender_name := Build_sender_name {
  text : string;
  text_fits : Is_true (fits_senderName text);
}.

Record sender_info := Build_sender_info {
  info_width : Z;
  info_height : Z;
  info_dxHandle : Z;
  info_dxFormat : Z;
}.

Record host := Build_host {
  (** milliseconds since start-up, a [DWORD] *)
  GetTickCount : Z;
  (** the library handle, possibly [NULL] *)
  GetSpout : Z;
  GetSenderCount : Z;
  (** [None]: the call returned false and left the buffer alone *)
  GetSenderName : Z → option sender_name;
  SetActiveSender : string → bool;
  (** [None]: the call returned false and left [dxHandle] and [dxFormat]
      alone *)
  GetSenderInfo : string → option sender_info;
  (** the imported texture, [NULL] when the import fails *)
  gs_texture_open_shared : Z → Z;
  obs_source_active : Z → bool;
  (** how many times [gs_effect_loop] answers true before it answers false *)
  gs_effect_loop : nat;
}.

(** Calls that leave the plugin, in the order they are made. *)
Inductive event :=
  | Call_GetSenderCount
  | Call_GetSenderName (index : Z)
  | Call_SetActiveSender (name : string)
  | Call_GetSenderInfo (name : string)
  | Call_ReleaseReceiver
  | Call_Release
  | Call_obs_enter_graphics
  | Call_obs_leave_graphics
  | Call_gs_texture_destroy (tex : Z)
  | Call_gs_texture_open_shared (handle : Z)
  | Call_obs_source_draw (tex : Z)
  | Call_bfree.

Global Instance event_eq_dec : EqDecision event.
Proof. solve_decision. Defined.

(** ** The monad of callbacks *)

Inductive fault :=
  | NullDereference   (** a method call through a null [spoutptr] *)
  | BufferOverrun.    (** a write past the end of [senderName] *)

Inductive outcome (A : Type) :=
  | Done (a : A) (context : win_spout) (calls : list event)
  | Fault (f : fault).
Arguments Done {A} a context calls.
Arguments Fault {A} f.

Definition M (A : Type) : Type := win_spout → outcome A.

Global Instance M_ret : MRet M := λ A a context, Done a context [].

Global Instance M_bind : MBind M := λ A B k m context,
  match m context with
  | Done a context' calls =>
      match k a context' with
      | Done b context'' calls' => Done b context'' (calls ++ calls')
      | Fault f => Fault f
      end
  | Fault f => Fault f
  end.

(** Read the instance behind [data]. *)
Definition get : M win_spout := λ context, Done context context [].

(** Assign to it. *)
Definition modify (f : win_spout → win_spout) : M unit :=
  λ context, Done tt (f context) [].

(** Call the outside, which answers [a]. *)
Definition call {A} (e : event) (a : A) : M A :=
  λ context, Done a context [e].

Definition crash {A} (f : fault) : M A := λ _, Fault f.

(** ** The plugin *)

(** [get_first_spount_sender(context->spoutptr, context->senderName)]: its
    only call site passes the instance's own buffer. *)
Definition get_first_spount_sender (h : host) : M bool :=
  totalSenders ← call Call_GetSenderCount (GetSenderCount h);
  if totalSenders =? 0 then mret false
  else
    got ← call (Call_GetSenderName 0) (GetSenderName h 0);
    match got with
    | None => mret false
    | Some sender =>
        modify (set_senderName (text sender));;
        context ← get;
        ok ← call (Call_SetActiveSender (senderName context))
                  (SetActiveSender h (senderName context));
        if negb ok then mret false else mret true
    end.

Definition win_spout_init (h : host) (forced : bool) : M unit :=
  context ← get;
  if initialized context then mret tt
  else if (to_uint32 (GetTickCount h - 5000) <? lastCheckTick context)
          && negb forced then mret tt
  else if spoutptr context =? NULL then mret tt
  else
    proceed ←
      (if useFirstSender context then get_first_spount_sender h
       else
         senders ← call Call_GetSenderCount (GetSenderCount h);
         mret (negb (senders =? 0)));
    if negb proceed then mret tt
    else
      context ← get;
      found ← call (Call_GetSenderInfo (senderName context))
                   (GetSenderInfo h (senderName context));
      match found with
      | None => mret tt
      | Some info =>
          modify (set_dxHandle (info_dxHandle info));;
          modify (set_dxFormat (info_dxFormat info));;
          modify (set_width (to_int (info_width info)));;
          modify (set_height (to_int (info_height info)));;
          call Call_obs_enter_graphics tt;;
          context ← get;
          call (Call_gs_texture_destroy (texture context)) tt;;
          opened ← call
            (Call_gs_texture_open_shared (to_uint32 (dxHandle context)))
            (gs_texture_open_shared h (to_uint32 (dxHandle context)));
          modify (set_texture opened);;
          call Call_obs_leave_graphics tt;;
          modify (set_initialized true)
      end.

Definition win_spout_deinit : M unit :=
  modify (set_initialized false);;
  context ← get;
  (if texture context =? NULL then mret tt
   else
     call Call_obs_enter_graphics tt;;
     call (Call_gs_texture_destroy (texture context)) tt;;
     call Call_obs_leave_graphics tt;;
     modify (set_texture NULL));;
  context ← get;
  if spoutptr context =? NULL then crash NullDereference
  else call Call_ReleaseReceiver tt.

(** [memset(context->senderName, 0, 256)] *)
Definition memset_senderName : M unit := modify (set_senderName "").

(** [strcpy(context->senderName, newName)]: the copy is not bounded, so a
    text that does not fit runs over the end of the buffer. *)
Definition strcpy_senderName (newName : string) : M unit :=
  if fits_senderName newName then modify (set_senderName newName)
  else crash BufferOverrun.

Definition win_spout_update (h : host) (settings : obs_data_t) : M unit :=
  modify (set_useFirstSender
            (obs_data_get_bool settings USE_FIRST_AVAILABLE_SENDER));;
  let newName := obs_data_get_string settings CUSTOM_SPOUT_NAME in
  memset_senderName;;
  strcpy_senderName newName;;
  context ← get;
  if initialized context then
    win_spout_deinit;;
    win_spout_init h false
  else mret tt.

Definition win_spout_getwidth (context : win_spout) : Z :=
  to_uint32 (width context).

Definition win_spout_getheight (context : win_spout) : Z :=
  to_uint32 (height context).

Definition win_spout_show (h : host) : M unit := win_spout_init h true.

Definition win_spout_hide : M unit := win_spout_deinit.

(** The instance starts from the zeroed allocation. *)
Definition win_spout_create (h : host) (settings : obs_data_t) (src : Z)
  : outcome unit :=
  (modify (set_spoutptr (GetSpout h));;
   modify (set_source src);;
   modify (set_useFirstSender true);;
   modify (set_initialized false);;
   modify (set_texture NULL);;
   modify (set_dxHandle NULL);;
   modify (set_active false);;
   modify (set_initialized false);;
   modify (set_height 100);;
   modify (set_width 100);;
   win_spout_update h settings) bzalloc_win_spout.

(** The [seconds] argument is unused. *)
Definition win_spout_tick (h : host) : M unit :=
  context ← get;
  modify (set_active (obs_source_active h (source context)));;
  context ← get;
  if negb (initialized context) then win_spout_init h false else mret tt.

(** The instance is freed at the end: nothing may use it afterwards. *)
Definition win_spout_destroy : M unit :=
  win_spout_deinit;;
  context ← get;
  (if negb (spoutptr context =? NULL) then call Call_Release tt
   else mret tt);;
  call Call_bfree tt.

(** [while (gs_effect_loop(effect, "Draw")) obs_source_draw(...)] *)
Fixpoint draw_passes (passes : nat) (tex : Z) : M unit :=
  match passes with
  | O => mret tt
  | S passes' => call (Call_obs_source_draw tex) tt;; draw_passes passes' tex
  end.

Definition win_spout_render (h : host) : M unit :=
  context ← get;
  if negb (active context) then mret tt
  else if negb (initialized context) then mret tt
  else if texture context =? NULL then mret tt
  else draw_passes (gs_effect_loop h) (texture context).

(** The modified-callback of the "use first available" check box: it returns
    true and may rewrite the settings. *)
Definition on_toggle_first_available (s : obs_data_t) : bool * obs_data_t :=
  if negb (obs_data_get_bool s USE_FIRST_AVAILABLE_SENDER)
  then (true, obs_data_set_string s CUSTOM_SPOUT_NAME "")
  else (true, s).

(** The callbacks the host may make on a live instance, as registered in
    [obs_module_load], each with the answers of the outside during it. *)
Inductive callback :=
  | cb_update (settings : obs_data_t)
  | cb_show
  | cb_hide
  | cb_tick
  | cb_render.

Definition dispatch (h : host) (cb : callback) : M unit :=
  match cb with
  | cb_update settings => win_spout_update h settings
  | cb_show => win_spout_show h
  | cb_hide => win_spout_hide
  | cb_tick => win_spout_tick h
  | cb_render => win_spout_render h
  end.

Fixpoint run (script : list (host * callback)) : M unit :=
  match script with
  | [] => mret tt
  | (h, cb) :: rest => dispatch h cb;; run rest
  end.

(** ** Observations on the calls made *)

(** Discovery attempts: every attempt opens with one [GetSenderCount]. *)
Definition attempts (calls : list event) : nat :=
  length (filter (λ e, e = Call_GetSenderCount) calls).

(** The names looked up with [GetSenderInfo]. *)
Definition lookups (calls : list event) : list string :=
  omap (λ e, match e with Call_GetSenderInfo n => Some n | _ => None end)
       calls.

(** The non-null textures handed to [gs_texture_destroy]. *)
Definition destroyed (calls : list event) : list Z :=
  omap (λ e, match e with
             | Call_gs_texture_destroy tex =>
                 if tex =? NULL then None else Some tex
             | _ => None
             end) calls.

(** The calls [win_spout_deinit] makes on an instance with a library
    handle. *)
Definition deinit_calls (c : win_spout) : list event :=
  (if texture c =? NULL then []
   else [Call_obs_enter_graphics; Call_gs_texture_destroy (texture c);
         Call_obs_leave_graphics])
  ++ [Call_ReleaseReceiver].

(** Two instances that differ at most in the text of [senderName]. *)
Definition same_but_name (c1 c2 : win_spout) : Prop :=
  set_senderName "" c1 = set_senderName "" c2.

(** The time guard of [win_spout_init] for a call that is not forced. *)
Definition throttled (h : host) (c : win_spout) : bool :=
  to_uint32 (GetTickCount h - 5000) <? lastCheckTick c.

(** ** Derived instances *)

(** The two assignments every update makes. *)
Definition store_policy (settings : obs_data_t) (c : win_spout) : win_spout :=
  set_senderName (obs_data_get_string settings CUSTOM_SPOUT_NAME)
    (set_useFirstSender
       (obs_data_get_bool settings USE_FIRST_AVAILABLE_SENDER) c).

(** The instance as [win_spout_deinit] leaves it. *)
Definition unbound (c : win_spout) : win_spout :=
  set_texture NULL (set_initialized false c).

(** An UNBOUND instance holds no texture, and a BOUND one has a library
    handle. *)
Definition consistent (c : win_spout) : Prop :=
  (initialized c = false → texture c = NULL)
  ∧ (initialized c = true → spoutptr c ≠ NULL).

(** ** Sample hosts and settings *)

Definition camA : sender_name := {| text := "camA"; text_fits := I |}.
Definition camB : sender_name := {| text := "camB"; text_fits := I |}.

Definition make_settings (first : bool) (name : string) : obs_data_t :=
  obs_data_set_bool
    (obs_data_set_string ∅ CUSTOM_SPOUT_NAME name)
    USE_FIRST_AVAILABLE_SENDER first.

(** The defaults of [win_spout_defaults]. *)
Definition default_settings : obs_data_t := make_settings true "".

(** No sender is active at time [now]. *)
Definition no_senders (now : Z) : host :=
  {| GetTickCount := now; GetSpout := 4096; GetSenderCount := 0;
     GetSenderName := λ _, None; SetActiveSender := λ _, false;
     GetSenderInfo := λ _, None; gs_texture_open_shared := λ _, NULL;
     obs_source_active := λ _, true; gs_effect_loop := 1 |}.

(** Senders "camA" (1920x1080) and "camB" (1280x720) are active at time
    [now]; a shared handle is imported as the texture [import handle]. *)
Definition two_cameras (now : Z) (import : Z → Z) : host :=
  {| GetTickCount := now; GetSpout := 4096; GetSenderCount := 2;
     GetSenderName := λ i,
       if i =? 0 then Some camA else if i =? 1 then Some camB else None;
     SetActiveSender := λ n, String.eqb n "camA" || String.eqb n "camB";
     GetSenderInfo := λ n,
       if String.eqb n "camA" then Some (Build_sender_info 1920 1080 512 87)
       else if String.eqb n "camB" then Some (Build_sender_info 1280 720 768 87)
       else None;
     gs_texture_open_shared := import;
     obs_source_active := λ _, true; gs_effect_loop := 1 |}.

(** The instance [win_spout_create] returns for source 1 under the default
    settings. *)
Definition fresh_instance : win_spout :=
  {| source := 1; senderName := ""; useFirstSender := true;
     texture := NULL; dxHandle := NULL; dxFormat := 0; spoutptr := 4096;
     lastCheckTick := 0; width := 100; height := 100;
     initialized := false; active := false |}.

(** An import that always fails. *)
Definition import_fails : Z → Z := λ _, NULL.

(** An import that yields a texture at a fixed offset from the handle. *)
Definition import_ok : Z → Z := λ handle, handle + 65536.

(** A BOUND instance holding texture 66048. *)
Definition bound_instance : win_spout :=
  {| source := 1; senderName := "camA"; useFirstSender := true;
     texture := 66048; dxHandle := 512; dxFormat := 87; spoutptr := 4096;
     lastCheckTick := 0; width := 1920; height := 1080;
     initialized := true; active := true |}.

Fixpoint copies (n : nat) (a : Ascii.ascii) : string :=
  match n with
  | O => EmptyString
  | S n' => String a (copies n' a)
  end.

(** A text of 256 characters: with its terminator it needs 257 bytes. *)
Definition long_name : string := copies 256 (Ascii.ascii_of_nat 97).

(** ** The property panel

    [obs_properties_t] is the host's list of properties, in the order they
    were added.  A property pointer is modelled by the property's name, the
    key under which the panel stores its value in the settings. *)

(** The modified-callbacks this file defines. *)
Inductive modified_callback :=
  | modified_on_toggle_first_available
  | modified_on_sender_list_selected.

Inductive obs_property_type :=
  | OBS_PROPERTY_BOOL
  | OBS_PROPERTY_TEXT
  | OBS_PROPERTY_LIST.

Record obs_property := Build_obs_property {
  prop_name : string;
  prop_description : string;
  prop_type : obs_property_type;
  prop_modified : option modified_callback;
  prop_items : list (string * string);
}.

Definition obs_properties_create : list obs_property := [].

(** [obs_properties_add_bool], [_add_text] and [_add_list] append a property
    without callback or items and return the pointer to it. *)
Definition obs_properties_add (ty : obs_property_type)
    (props : list obs_property) (name description : string)
  : list obs_property * string :=
  (props ++ [{| prop_name := name; prop_description := description;
                prop_type := ty; prop_modified := None;
                prop_items := [] |}],
   name).

(** Apply [f] to the property behind the pointer [p]. *)
Definition obs_property_update (f : obs_property → obs_property)
    (props : list obs_property) (p : string) : list obs_property :=
  map (λ q, if String.eqb (prop_name q) p then f q else q) props.

(** A later call replaces the callback of an earlier one. *)
Definition obs_property_set_modified_callback (props : list obs_property)
    (p : string) (cb : modified_callback) : list obs_property :=
  obs_property_update
    (λ q, {| prop_name := prop_name q;
             prop_description := prop_description q;
             prop_type := prop_type q; prop_modified := Some cb;
             prop_items := prop_items q |}) props p.

Definition obs_property_list_clear (props : list obs_property) (p : string)
  : list obs_property :=
  obs_property_update
    (λ q, {| prop_name := prop_name q;
             prop_description := prop_description q;
             prop_type := prop_type q; prop_modified := prop_modified q;
             prop_items := [] |}) props p.

Definition obs_property_list_add_string (props : list obs_property)
    (p : string) (name val : string) : list obs_property :=
  obs_property_update
    (λ q, {| prop_name := prop_name q;
             prop_description := prop_description q;
             prop_type := prop_type q; prop_modified := prop_modified q;
             prop_items := prop_items q ++ [(name, val)] |}) props p.

(** The property of a given name, as [obs_properties_get] finds it. *)
Definition obs_properties_get (props : list obs_property) (name : string)
  : option obs_property :=
  find (λ q, String.eqb (prop_name q) name) props.

(** The modified-callback of the sender list: a non-empty selection becomes
    the configured name and switches first-available off. *)
Definition on_sender_list_selected (settings : obs_data_t)
  : bool * obs_data_t :=
  let selectedSender := obs_data_get_string settings SPOUT_SENDER_LIST in
  if (String.length selectedSender =? 0)%nat then (true, settings)
  else
    (true,
     obs_data_set_bool
       (obs_data_set_string settings CUSTOM_SPOUT_NAME selectedSender)
       USE_FIRST_AVAILABLE_SENDER false).

Definition run_modified (cb : modified_callback) (settings : obs_data_t)
  : bool * obs_data_t :=
  match cb with
  | modified_on_toggle_first_available => on_toggle_first_available settings
  | modified_on_sender_list_selected => on_sender_list_selected settings
  end.

(** What the host does when the user changes the value of the property
    [name]: it runs the property's callback, if it has one, on the settings
    that already hold the new value. *)
Definition obs_property_modified (props : list obs_property) (name : string)
    (settings : obs_data_t) : bool * obs_data_t :=
  match obs_properties_get props name with
  | Some q =>
      match prop_modified q with
      | Some cb => run_modified cb settings
      | None => (false, settings)
      end
  | None => (false, settings)
  end.

(** The loop of [fill_senders]: [remaining] iterations are left, [index] is
    the loop variable and [senderName] the content of the local buffer.  The
    result of [GetSenderName] is not tested: when it fails, the buffer keeps
    what it held. *)
Fixpoint fill_senders_loop (h : host) (remaining : nat) (index : Z)
    (senderName : string) (props : list obs_property) (list_p : string)
  : M (list obs_property) :=
  match remaining with
  | O => mret props
  | S remaining' =>
      got ← call (Call_GetSenderName index) (GetSenderName h index);
      let senderName :=
        match got with Some sender => text sender | None => senderName end in
      fill_senders_loop h remaining' (index + 1) senderName
        (obs_property_list_add_string props list_p senderName senderName)
        list_p
  end.

(** [fill_senders(spoutptr, list)].  The local buffer is not initialised:
    [stale] stands for what the stack holds there. *)
Definition fill_senders (h : host) (stale : string) (spoutptr : Z)
    (props : list obs_property) (list_p : string) : M (list obs_property) :=
  let props := obs_property_list_clear props list_p in
  if spoutptr =? NULL then crash NullDereference
  else
    totalSenders ← call Call_GetSenderCount (GetSenderCount h);
    if totalSenders =? 0 then mret props
    else fill_senders_loop h (Z.to_nat totalSenders) 0 stale props list_p.

(** [win_spout_properties]; [obs_module_text] is the host's translation of
    the labels. *)
Definition win_spout_properties (h : host) (obs_module_text : string → string)
    (stale : string) : M (list obs_property) :=
  context ← get;
  let props := obs_properties_create in
  let '(props, p) :=
    obs_properties_add OBS_PROPERTY_BOOL props USE_FIRST_AVAILABLE_SENDER
      (obs_module_text "UseFirstAvailableSender") in
  let props :=
    obs_property_set_modified_callback props p
      modified_on_toggle_first_available in
  let '(props, _) :=
    obs_properties_add OBS_PROPERTY_TEXT props CUSTOM_SPOUT_NAME
      (obs_module_text "CustomSpoutName") in
  let '(props, list_p) :=
    obs_properties_add OBS_PROPERTY_LIST props SPOUT_SENDER_LIST
      (obs_module_text "SpoutSenders") in
  let props :=
    obs_property_set_modified_callback props p
      modified_on_sender_list_selected in
  fill_senders h stale (spoutptr context) props list_p.

(** ** The defaults: [win_spout_defaults]

    A default is what the getters return for a key that holds no value. *)
Definition obs_data_set_default_string (d : obs_data_t) (name : string)
    (s : string) : obs_data_t :=
  match d !! name with Some _ => d | None => <[name := obs_string s]> d end.

Definition obs_data_set_default_bool (d : obs_data_t) (name : string)
    (b : bool) : obs_data_t :=
  match d !! name with Some _ => d | None => <[name := obs_bool b]> d end.

Definition win_spout_defaults (settings : obs_data_t) : obs_data_t :=
  let settings := obs_data_set_default_string settings CUSTOM_SPOUT_NAME "" in
  obs_data_set_default_bool settings USE_FIRST_AVAILABLE_SENDER true.

(** ** Further observations on the calls made *)

(** The handles given to [gs_texture_open_shared]. *)
Definition imported (calls : list event) : list Z :=
  omap (λ e, match e with
             | Call_gs_texture_open_shared handle => Some handle
             | _ => None
             end) calls.

(** The instance holds a texture. *)
Definition holds_texture (c : win_spout) : nat :=
  if texture c =? NULL then 0%nat else 1%nat.

(** Texture calls are made between [obs_enter_graphics] and
    [obs_leave_graphics] only, which alternate; [inside] tells whether the
    scope is open at the start, and it is closed at the end. *)
Fixpoint graphics_scoped (inside : bool) (calls : list event) : bool :=
  match calls with
  | [] => negb inside
  | Call_obs_enter_graphics :: rest =>
      negb inside && graphics_scoped true rest
  | Call_obs_leave_graphics :: rest => inside && graphics_scoped false rest
  | Call_gs_texture_destroy _ :: rest
  | Call_gs_texture_open_shared _ :: rest =>
      inside && graphics_scoped inside rest
  | _ :: rest => graphics_scoped inside rest
  end.

(** Every configured name of the script fits the buffer. *)
Definition script_fits (script : list (host * callback)) : bool :=
  forallb (λ step,
             match snd step with
             | cb_update settings =>
                 fits_senderName
                   (obs_data_get_string settings CUSTOM_SPOUT_NAME)
             | _ => true
             end) script.

(** The script consists of ticks and renders. *)
Definition only_frames (script : list (host * callback)) : bool :=
  forallb (λ step,
             match snd step with
             | cb_tick | cb_render => true
             | _ => false
             end) script.

(** The successive contents of the local buffer of [fill_senders] over
    [remaining] iterations from [index]: each is the name found at the
    index, or the content before when none is found. *)
Fixpoint listed_names (h : host) (remaining : nat) (index : Z)
    (senderName : string) : list string :=
  match remaining with
  | O => []
  | S remaining' =>
      let senderName :=
        match GetSenderName h index with
        | Some sender => text sender
        | None => senderName
        end in
      senderName :: listed_names h remaining' (index + 1) senderName
  end.

(** The items of the list property [name]. *)
Definition list_items (props : list obs_property) (name : string)
  : option (list (string * string)) :=
  prop_items <$> obs_properties_get props name.

(** The callback of the property [name]. *)
Definition modified_of (props : list obs_property) (name : string)
  : option (option modified_callback) :=
  prop_modified <$> obs_properties_get props name.

(** A sample host whose library handle is null. *)
Definition no_spout (now : Z) : host :=
  {| GetTickCount := now; GetSpout := NULL; GetSenderCount := 0;
     GetSenderName := λ _, None; SetActiveSender := λ _, false;
     GetSenderInfo := λ _, None; gs_texture_open_shared := λ _, NULL;
     obs_source_active := λ _, true; gs_effect_loop := 1 |}.

(** An UNBOUND instance whose [lastCheckTick] holds a time 1 ms before
    60000, as if an attempt had been recorded then. *)
Definition recent_instance : win_spout :=
  {| source := 1; senderName := ""; useFirstSender := true;
     texture := NULL; dxHandle := NULL; dxFormat := 0; spoutptr := 4096;
     lastCheckTick := 59999; width := 100; height := 100;
     initialized := false; active := false |}.

(** An UNBOUND instance that follows the explicit name "camB". *)
Definition camB_instance : win_spout :=
  {| source := 1; senderName := "camB"; useFirstSender := false;
     texture := NULL; dxHandle := NULL; dxFormat := 0; spoutptr := 4096;
     lastCheckTick := 0; width := 100; height := 100;
     initialized := false; active := false |}.

(** An UNBOUND instance that follows the explicit name "camZ", which no
    sample host knows. *)
Definition camZ_instance : win_spout :=
  {| source := 1; senderName := "camZ"; useFirstSender := false;
     texture := NULL; dxHandle := NULL; dxFormat := 0; spoutptr := 4096;
     lastCheckTick := 0; width := 100; height := 100;
     initialized := false; active := false |}.

(** The instance created while [GetSpout] returned null. *)
Definition orphan_instance : win_spout :=
  {| source := 1; senderName := ""; useFirstSender := true;
     texture := NULL; dxHandle := NULL; dxFormat := 0; spoutptr := NULL;
     lastCheckTick := 0; width := 100; height := 100;
     initialized := false; active := false |}.

(** Settings that hold no key at all. *)
Definition empty_settings : obs_data_t := ∅.

(** Settings in which "camB" is selected in the sender list. *)
Definition camB_selected : obs_data_t :=
  obs_data_set_string default_settings SPOUT_SENDER_LIST "camB".

(** Three senders are counted but the one at index 1 cannot be named. *)
Definition gap_directory : host :=
  {| GetTickCount := 60000; GetSpout := 4096; GetSenderCount := 3;
     GetSenderName := λ i,
       if i =? 0 then Some camA else if i =? 2 then Some camB else None;
     SetActiveSender := λ _, true; GetSenderInfo := λ _, None;
     gs_texture_open_shared := λ _, NULL;
     obs_source_active := λ _, true; gs_effect_loop := 1 |}.

(** A panel that holds a sender list with an item from an earlier fill. *)
Definition old_panel : list obs_property :=
  [{| prop_name := SPOUT_SENDER_LIST; prop_description := "Spout Senders";
      prop_type := OBS_PROPERTY_LIST; prop_modified := None;
      prop_items := [("gone", "gone")] |}].

(** The property [q] with [added] appended to its items. *)
Definition append_items (added : list (string * string)) (q : obs_property)
  : obs_property :=
  {| prop_name := prop_name q; prop_description := prop_description q;
     prop_type := prop_type q; prop_modified := prop_modified q;
     prop_items := prop_items q ++ added |}.

(** The item [obs_property_list_add_string] makes of a sender name. *)
Definition name_item (name : string) : string * string := (name, name).

(** English labels. *)
Definition en_US (key : string) : string := key.

(** ** Basic facts *)

Lemma to_uint32_to_int z : to_uint32 (to_int z) = to_uint32 z.
Proof.
  unfold to_uint32, to_int.
  rewrite Zminus_mod_idemp_l.
  replace (z + 2 ^ 31 - 2 ^ 31) with z by lia. reflexivity.
Qed.

Lemma to_uint32_range z : 0 ≤ to_uint32 z < 2 ^ 32.
Proof. unfold to_uint32. apply Z.mod_pos_bound. lia. Qed.

(** The sample instances are ones the plugin reaches. *)
Lemma create_default_is_fresh now :
  win_spout_create (no_senders now) default_settings 1
  = Done tt fresh_instance [].
Proof. reflexivity. Qed.

Lemma bound_instance_reached :
  run [(two_cameras 60000 import_ok, cb_tick)] fresh_instance
  = Done tt bound_instance
      [Call_GetSenderCount; Call_GetSenderName 0; Call_SetActiveSender "camA";
       Call_GetSenderInfo "camA"; Call_obs_enter_graphics;
       Call_gs_texture_destroy NULL; Call_gs_texture_open_shared 512;
       Call_obs_leave_graphics].
Proof. vm_compute. reflexivity. Qed.

(** Unfolding of the monad, and the case analysis along the exits of
    [win_spout_init] in the order the code takes them. *)
Ltac unfold_M := cbv [mbind M_bind mret M_ret get modify call crash].

Ltac init_exits h c :=
  unfold win_spout_init, get_first_spount_sender; unfold_M;
  destruct (initialized c) eqn:?;
  [| destruct (to_uint32 (GetTickCount h - 5000) <? lastCheckTick c) eqn:?;
     (destruct (spoutptr c =? NULL) eqn:?;
      [| destruct (GetSenderCount h =? 0) eqn:?;
         (destruct (useFirstSender c) eqn:?;
          [ destruct (GetSenderName h 0) as [sender|] eqn:?;
            [ cbn; destruct (SetActiveSender h (text sender)) eqn:?;
              [ cbn;
                destruct (GetSenderInfo h (text sender)) as [info|] eqn:? |]
            |]
          | cbn;
            destruct (GetSenderInfo h (senderName c)) as [info|] eqn:? ])])];
  cbn in *.

(** Membership in an explicit list of calls, by cases. *)
Ltac split_elem_of :=
  repeat match goal with
    | H : _ ∈ _ |- _ => apply list_elem_of_In in H; cbn in H
    | H : _ ∨ _ |- _ => destruct H
    | H : ∃ _, _ |- _ => destruct H
    | H : False |- _ => destruct H
    end.

(** *** [win_spout_init] *)

(** It always returns. *)
Lemma win_spout_init_returns h forced c :
  ∃ c' t, win_spout_init h forced c = Done tt c' t.
Proof. destruct forced; init_exits h c; eauto. Qed.

(** It assigns none of the fields below; in particular no statement records
    the time of the attempt in [lastCheckTick]. *)
Lemma win_spout_init_frame h forced c c' t :
  win_spout_init h forced c = Done tt c' t →
  lastCheckTick c' = lastCheckTick c ∧ spoutptr c' = spoutptr c
  ∧ source c' = source c ∧ useFirstSender c' = useFirstSender c
  ∧ active c' = active c.
Proof.
  destruct forced; init_exits h c; intros [= <- <-]; cbn; auto.
Qed.

(** *** [win_spout_deinit] *)

(** On an instance with a library handle. *)
Lemma win_spout_deinit_done c :
  spoutptr c ≠ NULL →
  win_spout_deinit c = Done tt (unbound c) (deinit_calls c).
Proof.
  intros Hptr. apply Z.eqb_neq in Hptr.
  unfold win_spout_deinit, deinit_calls, unbound; unfold_M; cbn.
  destruct (Z.eqb_spec (texture c) NULL) as [Htex | Htex]; cbn;
    rewrite Hptr; cbn; [| reflexivity].
  unfold set_texture, set_initialized; cbn. rewrite Htex. reflexivity.
Qed.

(** Without one, the call through [spoutptr] at its end is a null
    dereference. *)
Lemma win_spout_deinit_null c :
  spoutptr c = NULL → win_spout_deinit c = Fault NullDereference.
Proof.
  intros Hptr. apply Z.eqb_eq in Hptr.
  unfold win_spout_deinit; unfold_M; cbn.
  destruct (texture c =? NULL); cbn; rewrite Hptr; reflexivity.
Qed.

Lemma destroyed_deinit_calls c :
  destroyed (deinit_calls c) = if texture c =? NULL then [] else [texture c].
Proof.
  unfold deinit_calls, destroyed.
  destruct (texture c =? NULL) eqn:Htex; cbn; [reflexivity |].
  rewrite Htex. reflexivity.
Qed.

(** *** [win_spout_render] *)

Lemma draw_passes_done passes tex c :
  draw_passes passes tex c
  = Done tt c (replicate passes (Call_obs_source_draw tex)).
Proof.
  induction passes as [| n IH]; cbn [draw_passes replicate]; unfold_M.
  - reflexivity.
  - rewrite IH. reflexivity.
Qed.

Lemma win_spout_render_returns h c :
  ∃ t, win_spout_render h c = Done tt c t.
Proof.
  unfold win_spout_render; unfold_M.
  destruct (active c), (initialized c), (texture c =? NULL); cbn; eauto.
  rewrite draw_passes_done. eauto.
Qed.

(** *** [win_spout_update] *)

Lemma win_spout_update_unbound h settings c :
  Is_true (fits_senderName (obs_data_get_string settings CUSTOM_SPOUT_NAME)) →
  initialized c = false →
  win_spout_update h settings c = Done tt (store_policy settings c) [].
Proof.
  intros Hfits Hunbound.
  unfold win_spout_update, memset_senderName, strcpy_senderName.
  destruct (fits_senderName _); [| destruct Hfits].
  unfold_M; cbn. rewrite Hunbound. reflexivity.
Qed.

Lemma win_spout_update_bound h settings c :
  Is_true (fits_senderName (obs_data_get_string settings CUSTOM_SPOUT_NAME)) →
  initialized c = true → spoutptr c ≠ NULL →
  win_spout_update h settings c
  = match win_spout_init h false (unbound (store_policy settings c)) with
    | Done _ c' t => Done tt c' (deinit_calls c ++ t)
    | Fault f => Fault f
    end.
Proof.
  intros Hfits Hbound Hptr.
  unfold win_spout_update, memset_senderName, strcpy_senderName.
  destruct (fits_senderName _); [| destruct Hfits].
  unfold_M; cbn. rewrite Hbound.
  rewrite win_spout_deinit_done by exact Hptr.
  destruct (win_spout_init h false _) as [[] c1 t1 |]; reflexivity.
Qed.

Lemma win_spout_update_bound_null h settings c :
  initialized c = true → spoutptr c = NULL →
  ∃ f, win_spout_update h settings c = Fault f.
Proof.
  intros Hbound Hptr.
  unfold win_spout_update, memset_senderName, strcpy_senderName.
  destruct (fits_senderName _); unfold_M; cbn; [| eauto].
  rewrite Hbound, win_spout_deinit_null by exact Hptr. eauto.
Qed.

Lemma win_spout_update_overrun h settings c :
  fits_senderName (obs_data_get_string settings CUSTOM_SPOUT_NAME) = false →
  win_spout_update h settings c = Fault BufferOverrun.
Proof.
  intros Hlong.
  unfold win_spout_update, memset_senderName, strcpy_senderName.
  rewrite Hlong. reflexivity.
Qed.

(** *** [win_spout_create] *)

(** A creation that returns yields the zeroed allocation with the handle,
    the source, the placeholder dimensions and the configured policy. *)
Lemma win_spout_create_done h settings src c0 t0 :
  win_spout_create h settings src = Done tt c0 t0 →
  Is_true (fits_senderName (obs_data_get_string settings CUSTOM_SPOUT_NAME))
  ∧ t0 = []
  ∧ c0 = store_policy settings
           (set_width 100 (set_height 100
              (set_source src (set_spoutptr (GetSpout h) bzalloc_win_spout)))).
Proof.
  unfold win_spout_create, win_spout_update, memset_senderName,
    strcpy_senderName.
  destruct (fits_senderName _); unfold_M; cbn; [| discriminate].
  intros [= <- <-]. auto.
Qed.

(** ** Properties kept by every callback *)

Section Preservation.

Variable P : win_spout → Prop.

Hypothesis P_init : ∀ h forced c c' t,
  win_spout_init h forced c = Done tt c' t → P c → P c'.
Hypothesis P_unbound : ∀ c, P c → P (unbound c).
Hypothesis P_store : ∀ settings c,
  Is_true (fits_senderName (obs_data_get_string settings CUSTOM_SPOUT_NAME)) →
  P c → P (store_policy settings c).
Hypothesis P_active : ∀ b c, P c → P (set_active b c).

Lemma dispatch_preserves h cb c c' t :
  dispatch h cb c = Done tt c' t → P c → P c'.
Proof.
  destruct cb as [settings | | | |]; cbn [dispatch].
  - destruct (fits_senderName
                (obs_data_get_string settings CUSTOM_SPOUT_NAME)) eqn:Hfits;
      [| rewrite win_spout_update_overrun by exact Hfits; discriminate].
    apply Is_true_true in Hfits.
    destruct (initialized c) eqn:Hstate.
    + destruct (Z.eq_dec (spoutptr c) NULL) as [Hptr | Hptr].
      * destruct (win_spout_update_bound_null h settings c Hstate Hptr)
          as [f ->]. discriminate.
      * rewrite win_spout_update_bound by assumption.
        destruct (win_spout_init h false _) as [[] c1 t1 |] eqn:Hinit;
          [| discriminate].
        intros [= <- <-] HP. eauto.
    + rewrite win_spout_update_unbound by assumption.
      intros [= <- <-]. auto.
  - apply P_init.
  - unfold win_spout_hide.
    destruct (Z.eq_dec (spoutptr c) NULL) as [Hptr | Hptr].
    + rewrite win_spout_deinit_null by exact Hptr. discriminate.
    + rewrite win_spout_deinit_done by exact Hptr. intros [= <- <-]. auto.
  - unfold win_spout_tick; unfold_M; cbn.
    destruct (initialized c); cbn; [intros [= <- <-]; auto |].
    destruct (win_spout_init h false _) as [[] c1 t1 |] eqn:Hinit;
      [| discriminate].
    intros [= <- <-] HP. eauto.
  - destruct (win_spout_render_returns h c) as [t' ->].
    intros [= <- <-]. auto.
Qed.

Lemma run_preserves script : ∀ c c' t,
  run script c = Done tt c' t → P c → P c'.
Proof.
  induction script as [| [h cb] rest IH]; cbn [run]; intros c c' t.
  - intros [= <- <-]. auto.
  - unfold_M.
    destruct (dispatch h cb c) as [[] c1 t1 |] eqn:Hd; [| discriminate].
    destruct (run rest c1) as [[] c2 t2 |] eqn:Hr; [| discriminate].
    intros [= <- <-] HP.
    eapply IH; [exact Hr |]. eapply dispatch_preserves; eauto.
Qed.

End Preservation.

(** No callback assigns [lastCheckTick] or [spoutptr]. *)
Lemma run_frame script c c' t :
  run script c = Done tt c' t →
  lastCheckTick c' = lastCheckTick c ∧ spoutptr c' = spoutptr c.
Proof.
  intros Hrun.
  apply (run_preserves
           (λ x, lastCheckTick x = lastCheckTick c ∧ spoutptr x = spoutptr c))
    with (5 := Hrun); auto.
  intros h forced x x' t' Hinit [Htick Hptr].
  apply win_spout_init_frame in Hinit. intuition congruence.
Qed.

(** From creation on, [lastCheckTick] is the zero of the allocation. *)
Lemma lastCheckTick_stays_zero h0 settings src script c0 t0 c t :
  win_spout_create h0 settings src = Done tt c0 t0 →
  run script c0 = Done tt c t →
  lastCheckTick c = 0.
Proof.
  intros Hcreate Hrun. apply run_frame in Hrun as [-> _].
  apply win_spout_create_done in Hcreate as (_ & _ & ->). reflexivity.
Qed.

(** The text in [senderName] fits its buffer after every callback that
    returns, given that it did before. *)
Lemma init_name_fits h forced c c' t :
  win_spout_init h forced c = Done tt c' t →
  Is_true (fits_senderName (senderName c)) →
  Is_true (fits_senderName (senderName c')).
Proof.
  destruct forced; init_exits h c; intros [= <- <-] Hfits; cbn;
    auto; apply text_fits.
Qed.

Lemma run_name_fits script c c' t :
  run script c = Done tt c' t →
  Is_true (fits_senderName (senderName c)) →
  Is_true (fits_senderName (senderName c')).
Proof.
  apply (run_preserves (λ x, Is_true (fits_senderName (senderName x))));
    cbn; auto.
  intros h forced x x' t'. apply init_name_fits.
Qed.

(** Every instance reached from a creation is consistent. *)
Lemma init_consistent h forced c c' t :
  win_spout_init h forced c = Done tt c' t →
  consistent c → consistent c'.
Proof.
  unfold consistent.
  destruct forced; init_exits h c; intros [= <- <-] [Htex Hptr]; cbn;
    split; intros; try congruence; auto;
    apply Z.eqb_neq; assumption.
Qed.

Lemma run_consistent h0 settings src script c0 t0 c t :
  win_spout_create h0 settings src = Done tt c0 t0 →
  run script c0 = Done tt c t →
  consistent c.
Proof.
  intros Hcreate Hrun.
  apply (run_preserves consistent) with (5 := Hrun).
  - apply init_consistent.
  - intros x _. split; cbn; [reflexivity | discriminate].
  - intros s x _ Hx. exact Hx.
  - intros b x Hx. exact Hx.
  - apply win_spout_create_done in Hcreate as (_ & _ & ->).
    split; cbn; [reflexivity | discriminate].
Qed.

(** ** Discovery: [win_spout_init] *)




(** C8.  When the directory reports zero active senders, a discovery attempt
    under either policy makes no by-name lookup and changes nothing in the
    instance: it stays UNBOUND if it was, with the same width and height. *)
Theorem no_senders_no_lookup h forced c :
  GetSenderCount h = 0 →
  ∃ t, win_spout_init h forced c = Done tt c t
       ∧ lookups t = []
       ∧ (t = [] ∨ t = [Call_GetSenderCount]).
Proof.
  intros Hcount.
  destruct forced; init_exits h c; try (rewrite Hcount in *; discriminate);
    eexists; (split; [reflexivity |]); cbn; auto.
Qed.

Lemma no_senders_no_lookup_witness :
  GetSenderCount (no_senders 60000) = 0
  ∧ ∃ t, win_spout_init (no_senders 60000) false fresh_instance
         = Done tt fresh_instance t
         ∧ lookups t = []
         ∧ (t = [] ∨ t = [Call_GetSenderCount]).
Proof.
  split; [reflexivity |].
  apply (no_senders_no_lookup (no_senders 60000) false fresh_instance).
  reflexivity.
Defined.

(** What an attempt that is not forced destroys and how often it queries,
    on an UNBOUND instance. *)
Lemma init_calls h c c' t :
  win_spout_init h false c = Done tt c' t →
  initialized c = false → texture c = NULL → spoutptr c ≠ NULL →
  destroyed t = []
  ∧ attempts t = (if throttled h c then 0 else 1)%nat.
Proof.
  intros Hrun Hunbound Htex Hptr. apply Z.eqb_neq in Hptr.
  revert Hrun. unfold throttled.
  init_exits h c; intros [= <- <-]; try congruence;
    cbn; rewrite ?Htex; auto.
Qed.

(** Only an attempt that binds assigns [width] and [height]. *)
Lemma init_unbound_keeps_dimensions h forced c c' t :
  win_spout_init h forced c = Done tt c' t →
  initialized c' = false →
  width c' = width c ∧ height c' = height c.
Proof.
  destruct forced; init_exits h c; intros [= <- <-]; cbn;
    auto; discriminate.
Qed.

(** When it binds, the getters report the sender's dimensions. *)
Lemma init_bound_sets_dimensions h forced c c' t :
  initialized c = false →
  win_spout_init h forced c = Done tt c' t →
  initialized c' = true →
  ∃ info, GetSenderInfo h (senderName c') = Some info
          ∧ win_spout_getwidth c' = to_uint32 (info_width info)
          ∧ win_spout_getheight c' = to_uint32 (info_height info).
Proof.
  intros Hunbound.
  destruct forced; init_exits h c; intros [= <- <-]; cbn;
    try congruence; intros _; eexists; (split; [eassumption |]);
    unfold win_spout_getwidth, win_spout_getheight; cbn;
    rewrite !to_uint32_to_int; auto.
Qed.

(** Under the first-available policy the text in [senderName] plays no part
    in an attempt: the same calls are made, every lookup is for the name of
    sender 0, and the resulting instances differ at most in the text left in
    the buffer. *)
Lemma init_first_available_ignores_name h forced c n :
  useFirstSender c = true →
  ∃ d1 d2 t,
    win_spout_init h forced c = Done tt d1 t
    ∧ win_spout_init h forced (set_senderName n c) = Done tt d2 t
    ∧ same_but_name d1 d2
    ∧ ∀ m, m ∈ lookups t → ∃ s, GetSenderName h 0 = Some s ∧ m = text s.
Proof.
  intros Hfirst. unfold same_but_name.
  destruct forced; init_exits h c; try congruence;
    repeat match goal with
      | H : _ = _ |- _ => rewrite H; cbn
      end;
    eexists _, _, _; (split; [reflexivity |]); (split; [reflexivity |]);
    (split; [reflexivity |]); cbn; intros m Hm;
    split_elem_of; subst; eauto.
Qed.

(** ** The time guard and [lastCheckTick] *)

(** An unsigned value is never below zero: with [lastCheckTick] at zero the
    guard lets every call through. *)
Lemma throttled_zero h c : lastCheckTick c = 0 → throttled h c = false.
Proof.
  intros Hzero. unfold throttled. rewrite Hzero.
  apply Z.ltb_ge. apply to_uint32_range.
Qed.

(** Hence every periodic tick of an UNBOUND instance queries the
    directory, whatever the time. *)
Lemma unbound_tick_attempts h c :
  lastCheckTick c = 0 → initialized c = false → spoutptr c ≠ NULL →
  ∃ c' t, win_spout_tick h c = Done tt c' t ∧ attempts t = 1%nat.
Proof.
  intros Hzero Hunbound Hptr.
  pose proof (throttled_zero h c Hzero) as Hguard. unfold throttled in Hguard.
  apply Z.eqb_neq in Hptr.
  unfold win_spout_tick; unfold_M; cbn. rewrite Hunbound; cbn.
  set (c1 := set_active _ c).
  change (lastCheckTick c) with (lastCheckTick c1) in Hguard.
  change (initialized c) with (initialized c1) in Hunbound.
  change (spoutptr c) with (spoutptr c1) in Hptr.
  clearbody c1.
  init_exits h c1; try congruence; eexists _, _; split; reflexivity.
Qed.

(** This holds for every instance the plugin reaches, since nothing ever
    assigns [lastCheckTick]. *)
Lemma reached_unbound_tick_attempts h0 settings src script c0 t0 c t h :
  win_spout_create h0 settings src = Done tt c0 t0 →
  run script c0 = Done tt c t →
  GetSpout h0 ≠ NULL → initialized c = false →
  ∃ c' t', win_spout_tick h c = Done tt c' t' ∧ attempts t' = 1%nat.
Proof.
  intros Hcreate Hrun Hspout Hunbound.
  apply unbound_tick_attempts; [| exact Hunbound |].
  - eapply lastCheckTick_stays_zero; eauto.
  - apply run_frame in Hrun as [_ ->].
    apply win_spout_create_done in Hcreate as (_ & _ & ->). exact Hspout.
Qed.

(** C2 (the code at the failing input).  On the fresh instance, with no
    sender active, two periodic ticks 16 ms apart each query the directory:
    two discovery calls within 5000 ms. *)
Theorem two_ticks_16ms_apart_both_query :
  ∃ c1 t1 c2 t2,
    win_spout_tick (no_senders 60000) fresh_instance = Done tt c1 t1
    ∧ win_spout_tick (no_senders 60016) c1 = Done tt c2 t2
    ∧ initialized c1 = false
    ∧ attempts t1 = 1%nat ∧ attempts t2 = 1%nat
    ∧ attempts (t1 ++ t2) = 2%nat.
Proof.
  eexists _, _, _, _.
  split; [vm_compute; reflexivity |].
  split; [vm_compute; reflexivity |].
  repeat split; reflexivity.
Qed.

(** C3 (the code at the failing input).  At time 60000 a discovery attempt
    that fails (no sender) and one that succeeds ("camA") both return with
    [lastCheckTick] still 0. *)
Theorem discovery_does_not_record_time :
  (∃ c' t,
     win_spout_init (no_senders 60000) false fresh_instance = Done tt c' t
     ∧ attempts t = 1%nat ∧ initialized c' = false
     ∧ lastCheckTick c' = 0)
  ∧ (∃ c' t,
       win_spout_init (two_cameras 60000 import_ok) false fresh_instance
       = Done tt c' t
       ∧ attempts t = 1%nat ∧ initialized c' = true
       ∧ lastCheckTick c' = 0).
Proof.
  split; eexists _, _; (split; [vm_compute; reflexivity |]);
    repeat split; reflexivity.
Qed.

(** ** Rendering: [win_spout_render] *)

(** C7.  Rendering draws the bound texture, once per pass of the effect
    loop, only when the instance is active, BOUND and its texture is not
    null; otherwise it makes no call at all.  In both cases the instance is
    returned as it was. *)
Theorem render_gate h c :
  win_spout_render h c
  = Done tt c
      (if active c && initialized c && negb (texture c =? NULL)
       then replicate (gs_effect_loop h) (Call_obs_source_draw (texture c))
       else []).
Proof.
  unfold win_spout_render; unfold_M.
  destruct (active c), (initialized c), (texture c =? NULL); cbn;
    try reflexivity.
  rewrite draw_passes_done. reflexivity.
Qed.

(** ** Unbinding: [win_spout_deinit], [win_spout_hide],
    [win_spout_destroy] *)

(** C6.  Hiding a BOUND instance makes it UNBOUND, hands its texture (when
    it has one) to [gs_texture_destroy] exactly once and nulls the pointer;
    a deinit or a destroy that follows destroys no texture again. *)
Theorem hide_releases_texture_once c :
  initialized c = true → spoutptr c ≠ NULL →
  ∃ c' t,
    win_spout_hide c = Done tt c' t
    ∧ initialized c' = false ∧ texture c' = NULL
    ∧ destroyed t = (if texture c =? NULL then [] else [texture c])
    ∧ (∃ c'' t', win_spout_deinit c' = Done tt c'' t'
                 ∧ destroyed t' = [] ∧ texture c'' = NULL)
    ∧ (∃ c'' t', win_spout_destroy c' = Done tt c'' t' ∧ destroyed t' = []).
Proof.
  intros _ Hptr. unfold win_spout_hide, win_spout_destroy; unfold_M.
  rewrite win_spout_deinit_done by exact Hptr.
  eexists _, _. split; [reflexivity |].
  split; [reflexivity |]. split; [reflexivity |].
  split; [apply destroyed_deinit_calls |].
  rewrite win_spout_deinit_done by exact Hptr.
  apply Z.eqb_neq in Hptr. cbn. rewrite Hptr. cbn.
  split; eexists _, _; (split; [reflexivity |]); auto.
Qed.

Lemma hide_releases_texture_once_witness :
  initialized bound_instance = true ∧ spoutptr bound_instance ≠ NULL
  ∧ ∃ c' t,
      win_spout_hide bound_instance = Done tt c' t
      ∧ initialized c' = false ∧ texture c' = NULL
      ∧ destroyed t = [66048].
Proof.
  assert (Hptr : spoutptr bound_instance ≠ NULL) by (cbn; discriminate).
  split; [reflexivity |]. split; [exact Hptr |].
  destruct (hide_releases_texture_once bound_instance eq_refl Hptr)
    as (c' & t & Hrun & Hunbound & Hnull & Hdestroyed & _).
  exists c', t. auto.
Defined.

(** A callback that leaves the instance UNBOUND leaves its dimensions. *)
Lemma dispatch_unbound_keeps_dimensions h cb c c' t :
  dispatch h cb c = Done tt c' t →
  initialized c' = false →
  width c' = width c ∧ height c' = height c.
Proof.
  destruct cb as [settings | | | |]; cbn [dispatch].
  - destruct (fits_senderName
                (obs_data_get_string settings CUSTOM_SPOUT_NAME)) eqn:Hfits;
      [| rewrite win_spout_update_overrun by exact Hfits; discriminate].
    apply Is_true_true in Hfits.
    destruct (initialized c) eqn:Hstate.
    + destruct (Z.eq_dec (spoutptr c) NULL) as [Hptr | Hptr].
      * destruct (win_spout_update_bound_null h settings c Hstate Hptr)
          as [f ->]. discriminate.
      * rewrite win_spout_update_bound by assumption.
        destruct (win_spout_init h false _) as [[] c1 t1 |] eqn:Hinit;
          [| discriminate].
        intros [= <- <-] Hunbound.
        apply (init_unbound_keeps_dimensions _ _ _ _ _ Hinit Hunbound).
    + rewrite win_spout_update_unbound by assumption.
      intros [= <- <-]. auto.
  - apply init_unbound_keeps_dimensions.
  - unfold win_spout_hide.
    destruct (Z.eq_dec (spoutptr c) NULL) as [Hptr | Hptr].
    + rewrite win_spout_deinit_null by exact Hptr. discriminate.
    + rewrite win_spout_deinit_done by exact Hptr. intros [= <- <-]. auto.
  - unfold win_spout_tick; unfold_M; cbn.
    destruct (initialized c); cbn; [intros [= <- <-]; auto |].
    destruct (win_spout_init h false _) as [[] c1 t1 |] eqn:Hinit;
      [| discriminate].
    intros [= <- <-] Hunbound.
    apply (init_unbound_keeps_dimensions _ _ _ _ _ Hinit Hunbound).
  - destruct (win_spout_render_returns h c) as [t' ->].
    intros [= <- <-]. auto.
Qed.

(** C10.  Hiding leaves [width] and [height] as they are, so the getters
    report after it what they reported before; every later callback that
    leaves the instance UNBOUND keeps them too, and a new instance reports
    the placeholder 100 x 100. *)
Theorem hide_keeps_dimensions c :
  spoutptr c ≠ NULL →
  (∃ c' t,
     win_spout_hide c = Done tt c' t
     ∧ initialized c' = false
     ∧ width c' = width c ∧ height c' = height c
     ∧ win_spout_getwidth c' = win_spout_getwidth c
     ∧ win_spout_getheight c' = win_spout_getheight c
     ∧ ∀ h cb c'' t',
         dispatch h cb c' = Done tt c'' t' → initialized c'' = false →
         win_spout_getwidth c'' = win_spout_getwidth c
         ∧ win_spout_getheight c'' = win_spout_getheight c)
  ∧ ∀ h settings src c0 t0,
      win_spout_create h settings src = Done tt c0 t0 →
      initialized c0 = false
      ∧ win_spout_getwidth c0 = 100 ∧ win_spout_getheight c0 = 100.
Proof.
  intros Hptr. split.
  - unfold win_spout_hide. rewrite win_spout_deinit_done by exact Hptr.
    eexists _, _. split; [reflexivity |]. cbn.
    repeat (split; [reflexivity |]).
    intros h cb c'' t' Hstep Hunbound.
    destruct (dispatch_unbound_keeps_dimensions _ _ _ _ _ Hstep Hunbound)
      as [Hw Hh].
    unfold win_spout_getwidth, win_spout_getheight. rewrite Hw, Hh. auto.
  - intros h settings src c0 t0 Hcreate.
    apply win_spout_create_done in Hcreate as (_ & _ & ->). auto.
Qed.

Lemma hide_keeps_dimensions_witness :
  spoutptr bound_instance ≠ NULL
  ∧ ∃ c' t,
      win_spout_hide bound_instance = Done tt c' t
      ∧ initialized c' = false
      ∧ win_spout_getwidth c' = 1920 ∧ win_spout_getheight c' = 1080.
Proof.
  assert (Hptr : spoutptr bound_instance ≠ NULL) by (cbn; discriminate).
  split; [exact Hptr |].
  destruct (hide_keeps_dimensions bound_instance Hptr)
    as [(c' & t & Hrun & Hunbound & _ & _ & Hw & Hh & _) _].
  exists c', t. auto.
Defined.

(** ** Reconfiguration: [win_spout_update] *)

(** The claim C4 fails on the code at this input: the fresh instance is
    UNBOUND, senders "camA" and "camB" are active, and the configuration
    changes from first-available to the explicit name "camB".  The update
    stores the new policy and returns without a single call to the
    outside: no discovery attempt is made. *)
Lemma update_on_unbound_makes_no_attempt :
  ∃ c',
    win_spout_update (two_cameras 60000 import_ok)
      (make_settings false "camB") fresh_instance
    = Done tt c' []
    ∧ attempts [] = 0%nat
    ∧ initialized c' = false
    ∧ useFirstSender c' = false ∧ senderName c' = "camB".
Proof. eexists. split; [vm_compute; reflexivity |]. repeat split. Qed.

(** The calls of an update on any instance with a library handle: none
    when it is UNBOUND; when it is BOUND, the calls of the unbinding followed
    by those of the call of [win_spout_init] the code makes, which is not
    marked as forced. *)
Lemma update_calls h settings c :
  Is_true (fits_senderName (obs_data_get_string settings CUSTOM_SPOUT_NAME)) →
  spoutptr c ≠ NULL →
  ∃ c' t,
    win_spout_update h settings c = Done tt c' t
    ∧ useFirstSender c'
      = obs_data_get_bool settings USE_FIRST_AVAILABLE_SENDER
    ∧ (initialized c = false → c' = store_policy settings c ∧ t = [])
    ∧ (initialized c = true →
         ∃ t',
           win_spout_init h false (unbound (store_policy settings c))
           = Done tt c' t'
           ∧ t = deinit_calls c ++ t'
           ∧ destroyed t = (if texture c =? NULL then [] else [texture c])
           ∧ attempts t = (if throttled h c then 0 else 1)%nat).
Proof.
  intros Hfits Hptr.
  destruct (initialized c) eqn:Hstate.
  - rewrite win_spout_update_bound by assumption.
    destruct (win_spout_init_returns h false
                (unbound (store_policy settings c))) as (c' & t' & Hinit).
    rewrite Hinit. exists c', (deinit_calls c ++ t').
    destruct (init_calls _ _ _ _ Hinit) as (Hd & Ha);
      [reflexivity | reflexivity | exact Hptr |].
    apply win_spout_init_frame in Hinit as Hframe.
    destruct Hframe as (_ & _ & _ & Hflag & _).
    split; [reflexivity |]. split; [exact Hflag |].
    split; [discriminate |]. intros _. exists t'.
    split; [reflexivity |]. split; [reflexivity |].
    unfold destroyed, attempts in *.
    rewrite omap_app, filter_app, length_app.
    fold (destroyed (deinit_calls c)). rewrite destroyed_deinit_calls.
    rewrite Hd, Ha, app_nil_r. split; [reflexivity |].
    unfold deinit_calls. destruct (texture c =? NULL); reflexivity.
  - rewrite win_spout_update_unbound by assumption.
    eexists _, _. split; [reflexivity |]. split; [reflexivity |].
    split; [auto | discriminate].
Qed.

(** With [lastCheckTick] at zero, a call that is not forced does what a
    forced call does. *)
Lemma init_unthrottled h c :
  lastCheckTick c = 0 → win_spout_init h false c = win_spout_init h true c.
Proof.
  intros Hzero. pose proof (throttled_zero h c Hzero) as Hguard.
  unfold throttled in Hguard.
  unfold win_spout_init; unfold_M. rewrite Hguard. reflexivity.
Qed.

(** C4 (amended).  On an instance reached from a creation by any sequence
    of callbacks, an update whose text fits the buffer stores the flag and
    the text.  If the instance is BOUND, the binding is destroyed (the
    texture, when there is one, exactly once) and then a discovery attempt
    with the new policy is made in the same call, regardless of the time
    elapsed: it queries the directory once and does what a forced attempt
    does.  If the instance is UNBOUND, the update does nothing else: no
    call is made and discovery is left to the next tick. *)
Theorem update_rebinds_only_when_bound h0 settings0 src script c0 t0 c t1
    h settings :
  win_spout_create h0 settings0 src = Done tt c0 t0 →
  run script c0 = Done tt c t1 →
  Is_true (fits_senderName (obs_data_get_string settings CUSTOM_SPOUT_NAME)) →
  ∃ c' t,
    win_spout_update h settings c = Done tt c' t
    ∧ useFirstSender c'
      = obs_data_get_bool settings USE_FIRST_AVAILABLE_SENDER
    ∧ (initialized c = false → c' = store_policy settings c ∧ t = [])
    ∧ (initialized c = true →
         ∃ t',
           win_spout_init h true (unbound (store_policy settings c))
           = Done tt c' t'
           ∧ t = deinit_calls c ++ t'
           ∧ destroyed t = (if texture c =? NULL then [] else [texture c])
           ∧ attempts t = 1%nat).
Proof.
  intros Hcreate Hrun Hfits.
  assert (Hzero : lastCheckTick c = 0)
    by (eapply lastCheckTick_stays_zero; eauto).
  destruct (run_consistent _ _ _ _ _ _ _ _ Hcreate Hrun) as [_ Hhandle].
  destruct (initialized c) eqn:Hstate.
  - destruct (update_calls h settings c Hfits (Hhandle eq_refl))
      as (c' & t & Hupd & Hflag & _ & Hbound).
    destruct (Hbound Hstate) as (t' & Hinit & Ht & Hd & Ha).
    exists c', t. split; [exact Hupd |]. split; [exact Hflag |].
    split; [discriminate |]. intros _. exists t'.
    rewrite <- init_unthrottled by exact Hzero.
    rewrite (throttled_zero h c Hzero) in Ha. auto.
  - rewrite win_spout_update_unbound by assumption.
    eexists _, _. split; [reflexivity |]. split; [reflexivity |].
    split; [auto | discriminate].
Qed.

Lemma update_rebinds_only_when_bound_witness :
  win_spout_create (no_senders 0) default_settings 1
  = Done tt fresh_instance []
  ∧ (∃ t1, run [(two_cameras 60000 import_ok, cb_tick)] fresh_instance
           = Done tt bound_instance t1)
  ∧ Is_true (fits_senderName
               (obs_data_get_string (make_settings false "camB")
                  CUSTOM_SPOUT_NAME))
  ∧ ∃ c' t,
      win_spout_update (two_cameras 60016 import_ok)
        (make_settings false "camB") bound_instance
      = Done tt c' t
      ∧ useFirstSender c' = false
      ∧ destroyed t = [66048] ∧ attempts t = 1%nat.
Proof.
  split; [reflexivity |].
  split; [eexists; exact bound_instance_reached |].
  split; [exact I |].
  destruct (update_rebinds_only_when_bound (no_senders 0) default_settings 1
              [(two_cameras 60000 import_ok, cb_tick)] fresh_instance []
              bound_instance _ (two_cameras 60016 import_ok)
              (make_settings false "camB")
              eq_refl bound_instance_reached I)
    as (c' & t & Hrun & Hflag & _ & Hbound).
  destruct (Hbound eq_refl) as (t' & _ & _ & Hd & Ha).
  exists c', t. auto.
Defined.

(** ** The first-available policy and the stored name *)

Lemma same_but_name_set n c : same_but_name (set_senderName n c) c.
Proof. reflexivity. Qed.

Lemma same_but_name_sym c1 c2 : same_but_name c1 c2 → same_but_name c2 c1.
Proof. unfold same_but_name. auto. Qed.

Lemma same_but_name_eq c1 c2 :
  same_but_name c1 c2 → c1 = set_senderName (senderName c1) c2.
Proof.
  unfold same_but_name, set_senderName. destruct c1, c2; cbn.
  intros [=]. subst. reflexivity.
Qed.

(** Two instances under the first-available policy that differ at most in
    the stored text go through the same discovery. *)
Lemma init_same_but_name h forced c1 c2 :
  same_but_name c1 c2 → useFirstSender c2 = true →
  ∃ d1 d2 t,
    win_spout_init h forced c1 = Done tt d1 t
    ∧ win_spout_init h forced c2 = Done tt d2 t
    ∧ same_but_name d1 d2
    ∧ ∀ n, n ∈ lookups t → ∃ s, GetSenderName h 0 = Some s ∧ n = text s.
Proof.
  intros Hsame Hfirst. rewrite (same_but_name_eq _ _ Hsame).
  destruct (init_first_available_ignores_name h forced c2
              (senderName c1) Hfirst) as (d2 & d1 & t & H2 & H1 & Hs & Hl).
  exists d1, d2, t. auto using same_but_name_sym.
Qed.

Lemma settings_cleared_name settings :
  obs_data_get_string
    (obs_data_set_string settings CUSTOM_SPOUT_NAME "") CUSTOM_SPOUT_NAME
  = "".
Proof.
  unfold obs_data_get_string, obs_data_set_string.
  rewrite lookup_insert_eq. reflexivity.
Qed.

Lemma settings_cleared_flag settings :
  obs_data_get_bool
    (obs_data_set_string settings CUSTOM_SPOUT_NAME "")
    USE_FIRST_AVAILABLE_SENDER
  = obs_data_get_bool settings USE_FIRST_AVAILABLE_SENDER.
Proof.
  unfold obs_data_get_bool, obs_data_set_string.
  rewrite lookup_insert_ne by discriminate. reflexivity.
Qed.

(** The claim C5 fails on the code at this input: the settings hold the flag
    set together with the text "camB"; the update copies the text into
    [senderName], which is not empty afterwards. *)
Lemma update_keeps_name_under_first_available :
  ∃ c',
    win_spout_update (two_cameras 60000 import_ok)
      (make_settings true "camB") fresh_instance
    = Done tt c' []
    ∧ useFirstSender c' = true ∧ senderName c' = "camB"
    ∧ senderName c' ≠ "".
Proof.
  eexists. split; [vm_compute; reflexivity |]. repeat split. discriminate.
Qed.

(** The update under the first-available policy, on any instance that has a
    library handle whenever it is BOUND. *)
Lemma update_first_available h settings c :
  obs_data_get_bool settings USE_FIRST_AVAILABLE_SENDER = true →
  Is_true (fits_senderName (obs_data_get_string settings CUSTOM_SPOUT_NAME)) →
  (initialized c = true → spoutptr c ≠ NULL) →
  snd (on_toggle_first_available settings) = settings
  ∧ ∃ c1 c2 t,
      win_spout_update h settings c = Done tt c1 t
      ∧ win_spout_update h
          (obs_data_set_string settings CUSTOM_SPOUT_NAME "") c
        = Done tt c2 t
      ∧ same_but_name c1 c2
      ∧ useFirstSender c1 = true
      ∧ (initialized c = false →
           senderName c1 = obs_data_get_string settings CUSTOM_SPOUT_NAME)
      ∧ (∀ n, n ∈ lookups t → ∃ s, GetSenderName h 0 = Some s ∧ n = text s)
      ∧ ∀ h' forced, ∃ d1 d2 t',
          win_spout_init h' forced c1 = Done tt d1 t'
          ∧ win_spout_init h' forced c2 = Done tt d2 t'
          ∧ same_but_name d1 d2
          ∧ ∀ n, n ∈ lookups t' →
              ∃ s, GetSenderName h' 0 = Some s ∧ n = text s.
Proof.
  intros Hflag Hfits Hptr.
  split; [unfold on_toggle_first_available; rewrite Hflag; reflexivity |].
  set (cleared := obs_data_set_string settings CUSTOM_SPOUT_NAME "").
  assert (Hfits' : Is_true (fits_senderName
                              (obs_data_get_string cleared CUSTOM_SPOUT_NAME)))
    by (unfold cleared; rewrite settings_cleared_name; exact I).
  assert (Hstore : store_policy settings c
                   = set_senderName
                       (obs_data_get_string settings CUSTOM_SPOUT_NAME)
                       (store_policy cleared c)).
  { unfold store_policy, cleared.
    rewrite settings_cleared_flag. reflexivity. }
  assert (Hfirst : useFirstSender (store_policy cleared c) = true).
  { unfold store_policy, cleared.
    cbn [useFirstSender set_senderName set_useFirstSender].
    rewrite settings_cleared_flag. exact Hflag. }
  destruct (initialized c) eqn:Hstate.
  - specialize (Hptr eq_refl).
    rewrite !win_spout_update_bound by assumption.
    rewrite Hstore.
    destruct (init_same_but_name h false
                (unbound (set_senderName
                            (obs_data_get_string settings CUSTOM_SPOUT_NAME)
                            (store_policy cleared c)))
                (unbound (store_policy cleared c)) eq_refl Hfirst)
      as (c1 & c2 & t & H1 & H2 & Hsame & Hlook).
    rewrite H1, H2. exists c1, c2, (deinit_calls c ++ t).
    split; [reflexivity |]. split; [reflexivity |]. split; [exact Hsame |].
    apply win_spout_init_frame in H1 as Hframe1.
    apply win_spout_init_frame in H2 as Hframe2.
    destruct Hframe1 as (_ & _ & _ & Hf1 & _).
    destruct Hframe2 as (_ & _ & _ & Hf2 & _).
    split; [rewrite Hf1; exact Hfirst |]. split; [discriminate |].
    split.
    + intros n. unfold lookups. rewrite omap_app, elem_of_app.
      intros [Hn | Hn]; [| apply Hlook; exact Hn].
      unfold deinit_calls in Hn. destruct (texture c =? NULL);
        apply list_elem_of_In in Hn; cbn in Hn; tauto.
    + intros h' forced.
      apply init_same_but_name; [exact Hsame |]. rewrite Hf2. exact Hfirst.
  - rewrite !win_spout_update_unbound by assumption.
    eexists _, _, _. split; [reflexivity |]. split; [reflexivity |].
    split; [rewrite Hstore; apply same_but_name_set |].
    split; [rewrite Hstore; exact Hfirst |].
    split; [reflexivity |].
    split; [intros n Hn; apply list_elem_of_In in Hn; destruct Hn |].
    intros h' forced.
    apply init_same_but_name;
      [rewrite Hstore; apply same_but_name_set | exact Hfirst].
Qed.

(** C5 (amended).  On an instance reached from a creation by any sequence
    of callbacks, with the use-first-available flag set and a configured
    text that fits the buffer: the toggle callback leaves the configured
    text alone and the update copies it into [senderName] as it does for
    any update; it is not cleared.  The text has no effect on the
    selection: the update, and any discovery attempt after it, make the same
    calls and reach the same instance, up to the text in the buffer, as
    with the text cleared, and every by-name lookup is for sender 0 of the
    directory.  The effective policy is first-available. *)
Theorem first_available_keeps_but_ignores_name h0 settings0 src script c0 t0
    c t1 h settings :
  win_spout_create h0 settings0 src = Done tt c0 t0 →
  run script c0 = Done tt c t1 →
  obs_data_get_bool settings USE_FIRST_AVAILABLE_SENDER = true →
  Is_true (fits_senderName (obs_data_get_string settings CUSTOM_SPOUT_NAME)) →
  snd (on_toggle_first_available settings) = settings
  ∧ ∃ c1 c2 t,
      win_spout_update h settings c = Done tt c1 t
      ∧ win_spout_update h
          (obs_data_set_string settings CUSTOM_SPOUT_NAME "") c
        = Done tt c2 t
      ∧ same_but_name c1 c2
      ∧ useFirstSender c1 = true
      ∧ (initialized c = false →
           senderName c1 = obs_data_get_string settings CUSTOM_SPOUT_NAME)
      ∧ (∀ n, n ∈ lookups t → ∃ s, GetSenderName h 0 = Some s ∧ n = text s)
      ∧ ∀ h' forced, ∃ d1 d2 t',
          win_spout_init h' forced c1 = Done tt d1 t'
          ∧ win_spout_init h' forced c2 = Done tt d2 t'
          ∧ same_but_name d1 d2
          ∧ ∀ n, n ∈ lookups t' →
              ∃ s, GetSenderName h' 0 = Some s ∧ n = text s.
Proof.
  intros Hcreate Hrun Hflag Hfits.
  apply update_first_available; [exact Hflag | exact Hfits |].
  apply (run_consistent _ _ _ _ _ _ _ _ Hcreate Hrun).
Qed.

Lemma first_available_keeps_but_ignores_name_witness :
  win_spout_create (no_senders 0) default_settings 1
  = Done tt fresh_instance []
  ∧ (∃ t1, run [(two_cameras 60000 import_ok, cb_tick)] fresh_instance
           = Done tt bound_instance t1)
  ∧ obs_data_get_bool (make_settings true "camB") USE_FIRST_AVAILABLE_SENDER
    = true
  ∧ Is_true (fits_senderName
               (obs_data_get_string (make_settings true "camB")
                  CUSTOM_SPOUT_NAME))
  ∧ ∃ c1 t,
      win_spout_update (two_cameras 60016 import_ok)
        (make_settings true "camB") bound_instance
      = Done tt c1 t
      ∧ useFirstSender c1 = true
      ∧ ∀ n, n ∈ lookups t →
          ∃ s, GetSenderName (two_cameras 60016 import_ok) 0 = Some s
               ∧ n = text s.
Proof.
  split; [reflexivity |].
  split; [eexists; exact bound_instance_reached |].
  split; [reflexivity |]. split; [exact I |].
  destruct (first_available_keeps_but_ignores_name
              (no_senders 0) default_settings 1
              [(two_cameras 60000 import_ok, cb_tick)] fresh_instance []
              bound_instance _ (two_cameras 60016 import_ok)
              (make_settings true "camB")
              eq_refl bound_instance_reached eq_refl I)
    as (_ & c1 & c2 & t & Hrun & _ & _ & Hfirst & _ & Hlook & _).
  exists c1, t. auto.
Defined.

(** ** The [senderName] buffer *)

(** C9 (the code at the failing input).  An update, or a creation, whose
    configured text has 256 characters copies it with an unbounded [strcpy]
    past the end of [senderName]; no bounded name results. *)
Theorem update_overruns_senderName :
  String.length long_name = 256%nat
  ∧ win_spout_update (no_senders 60000) (make_settings false long_name)
      fresh_instance
    = Fault BufferOverrun
  ∧ win_spout_create (no_senders 60000) (make_settings false long_name) 1
    = Fault BufferOverrun.
Proof. repeat split; vm_compute; reflexivity. Qed.

(** * Further properties of the code *)

(** ** Discovery paths *)

(** X1.  Showing an UNBOUND instance that has a library handle always
    queries the directory once, whatever the time and whatever
    [lastCheckTick] holds: the forced call skips the time guard. *)
Theorem show_always_attempts h c :
  initialized c = false → spoutptr c ≠ NULL →
  ∃ c' t, win_spout_show h c = Done tt c' t ∧ attempts t = 1%nat.
Proof.
  intros Hunbound Hptr. apply Z.eqb_neq in Hptr. unfold win_spout_show.
  init_exits h c; try congruence; eexists _, _; split; reflexivity.
Qed.

Lemma show_always_attempts_witness :
  initialized recent_instance = false ∧ spoutptr recent_instance ≠ NULL
  ∧ throttled (no_senders 60000) recent_instance = true
  ∧ ∃ c' t, win_spout_show (no_senders 60000) recent_instance = Done tt c' t
            ∧ attempts t = 1%nat.
Proof.
  assert (Hptr : spoutptr recent_instance ≠ NULL) by (cbn; discriminate).
  split; [reflexivity |]. split; [exact Hptr |]. split; [reflexivity |].
  exact (show_always_attempts (no_senders 60000) recent_instance eq_refl Hptr).
Defined.

(** X2.  The time guard in numbers, for a tick count within the [DWORD]
    range.  From 5000 ms on it holds a call back exactly when less than
    5000 ms separate the tick count from [lastCheckTick]; below 5000 ms the
    subtraction wraps and the guard holds back only for a [lastCheckTick]
    in the last 5000 values before the wrap.  A call that is held back
    returns the instance as it is without any call to the outside. *)
Theorem guard_window h c :
  0 ≤ GetTickCount h < 2 ^ 32 →
  (5000 ≤ GetTickCount h →
     (throttled h c = true ↔ GetTickCount h - lastCheckTick c < 5000))
  ∧ (GetTickCount h < 5000 →
       (throttled h c = true
        ↔ GetTickCount h + 2 ^ 32 - 5000 < lastCheckTick c))
  ∧ (initialized c = false → throttled h c = true →
       win_spout_init h false c = Done tt c []).
Proof.
  intros Hrange. unfold throttled, to_uint32. repeat split.
  - intros Hlt. apply Z.ltb_lt in Hlt.
    rewrite Z.mod_small in Hlt by lia. lia.
  - intros Hlt. apply Z.ltb_lt. rewrite Z.mod_small by lia. lia.
  - intros Hlt. apply Z.ltb_lt in Hlt.
    replace (GetTickCount h - 5000)
      with (GetTickCount h + 2 ^ 32 - 5000 + (-1) * 2 ^ 32) in Hlt by lia.
    rewrite Z.mod_add, Z.mod_small in Hlt by lia. lia.
  - intros Hlt. apply Z.ltb_lt.
    replace (GetTickCount h - 5000)
      with (GetTickCount h + 2 ^ 32 - 5000 + (-1) * 2 ^ 32) by lia.
    rewrite Z.mod_add, Z.mod_small by lia. lia.
  - intros Hunbound Hguard.
    unfold win_spout_init, to_uint32; unfold_M.
    rewrite Hunbound, Hguard. reflexivity.
Qed.

Lemma guard_window_witness :
  0 ≤ GetTickCount (no_senders 60000) < 2 ^ 32
  ∧ throttled (no_senders 60000) recent_instance = true
  ∧ win_spout_init (no_senders 60000) false recent_instance
    = Done tt recent_instance [].
Proof.
  assert (Hrange : 0 ≤ GetTickCount (no_senders 60000) < 2 ^ 32)
    by (cbn; lia).
  split; [exact Hrange |].
  destruct (guard_window (no_senders 60000) recent_instance Hrange)
    as (Hlate & _ & Hskip).
  assert (Hguard : throttled (no_senders 60000) recent_instance = true)
    by (apply Hlate; cbn; lia).
  split; [exact Hguard |]. exact (Hskip eq_refl Hguard).
Defined.

(** X3.  Under the explicit-name policy a discovery attempt never asks the
    directory for a sender's name and never selects the active sender; every
    by-name lookup it makes is for the stored name, which it leaves in
    place. *)
Theorem explicit_policy_looks_up_stored_name h forced c :
  useFirstSender c = false →
  ∃ c' t,
    win_spout_init h forced c = Done tt c' t
    ∧ senderName c' = senderName c
    ∧ (∀ n, n ∈ lookups t → n = senderName c)
    ∧ (∀ i, Call_GetSenderName i ∉ t)
    ∧ (∀ n, Call_SetActiveSender n ∉ t).
Proof.
  intros Hexplicit.
  destruct forced; init_exits h c; try congruence;
    eexists _, _; (split; [reflexivity |]); cbn;
    (split; [reflexivity |]); repeat split; intros;
    try (intros Hin); split_elem_of; congruence.
Qed.

Lemma explicit_policy_looks_up_stored_name_witness :
  useFirstSender camB_instance = false
  ∧ ∃ c' t,
      win_spout_init (two_cameras 60000 import_ok) false camB_instance
      = Done tt c' t
      ∧ senderName c' = "camB"
      ∧ ∀ n, n ∈ lookups t → n = "camB".
Proof.
  split; [reflexivity |].
  destruct (explicit_policy_looks_up_stored_name
              (two_cameras 60000 import_ok) false camB_instance eq_refl)
    as (c' & t & Hrun & Hname & Hlook & _).
  exists c', t. auto.
Defined.

(** X4.  Under the explicit-name policy, when the directory does not know
    the stored name, a discovery attempt leaves the instance exactly as it
    was, however many other senders are active, and touches no texture. *)
Theorem unknown_name_changes_nothing h forced c :
  useFirstSender c = false →
  GetSenderInfo h (senderName c) = None →
  ∃ t, win_spout_init h forced c = Done tt c t
       ∧ imported t = [] ∧ destroyed t = [].
Proof.
  intros Hexplicit Hunknown.
  destruct forced; init_exits h c; try congruence;
    eexists; (split; [reflexivity |]); cbn; auto.
Qed.

Lemma unknown_name_changes_nothing_witness :
  useFirstSender camZ_instance = false
  ∧ GetSenderInfo (two_cameras 60000 import_ok) (senderName camZ_instance)
    = None
  ∧ GetSenderCount (two_cameras 60000 import_ok) = 2
  ∧ ∃ t, win_spout_init (two_cameras 60000 import_ok) true camZ_instance
         = Done tt camZ_instance t
         ∧ imported t = [] ∧ destroyed t = [].
Proof.
  split; [reflexivity |]. split; [reflexivity |]. split; [reflexivity |].
  exact (unknown_name_changes_nothing (two_cameras 60000 import_ok) true
           camZ_instance eq_refl eq_refl).
Defined.

(** X5.  Under the first-available policy, an attempt that gets through the
    guard with sender 0 named, selectable and known binds to that sender:
    its name is stored, the texture is the import of the handle cut to 32
    bits, and the getters report the sender's width and height as unsigned
    32-bit values.  The calls are made in the order listed. *)
Theorem first_available_binds_sender_0 h forced c sender info :
  initialized c = false → spoutptr c ≠ NULL →
  throttled h c && negb forced = false →
  useFirstSender c = true → GetSenderCount h ≠ 0 →
  GetSenderName h 0 = Some sender →
  SetActiveSender h (text sender) = true →
  GetSenderInfo h (text sender) = Some info →
  ∃ c',
    win_spout_init h forced c
    = Done tt c'
        [Call_GetSenderCount; Call_GetSenderName 0;
         Call_SetActiveSender (text sender); Call_GetSenderInfo (text sender);
         Call_obs_enter_graphics; Call_gs_texture_destroy (texture c);
         Call_gs_texture_open_shared (to_uint32 (info_dxHandle info));
         Call_obs_leave_graphics]
    ∧ initialized c' = true ∧ senderName c' = text sender
    ∧ texture c'
      = gs_texture_open_shared h (to_uint32 (info_dxHandle info))
    ∧ win_spout_getwidth c' = to_uint32 (info_width info)
    ∧ win_spout_getheight c' = to_uint32 (info_height info).
Proof.
  intros Hunbound Hptr Hguard Hfirst Hcount Hname Hactive Hinfo.
  apply Z.eqb_neq in Hptr, Hcount. unfold throttled in Hguard.
  unfold win_spout_init, get_first_spount_sender; unfold_M.
  rewrite Hunbound, Hguard, Hptr, Hfirst, Hcount, Hname. cbn.
  rewrite Hactive. cbn. rewrite Hinfo. cbn.
  eexists. split; [reflexivity |]. cbn.
  unfold win_spout_getwidth, win_spout_getheight; cbn.
  rewrite !to_uint32_to_int. auto 10.
Qed.

Lemma first_available_binds_sender_0_witness :
  ∃ c',
    win_spout_init (two_cameras 60000 import_ok) false fresh_instance
    = Done tt c'
        [Call_GetSenderCount; Call_GetSenderName 0;
         Call_SetActiveSender "camA"; Call_GetSenderInfo "camA";
         Call_obs_enter_graphics; Call_gs_texture_destroy NULL;
         Call_gs_texture_open_shared 512; Call_obs_leave_graphics]
    ∧ initialized c' = true ∧ senderName c' = "camA"
    ∧ texture c' = 66048
    ∧ win_spout_getwidth c' = 1920 ∧ win_spout_getheight c' = 1080.
Proof.
  assert (Hptr : spoutptr fresh_instance ≠ NULL) by (cbn; discriminate).
  assert (Hcount : GetSenderCount (two_cameras 60000 import_ok) ≠ 0)
    by (cbn; discriminate).
  exact (first_available_binds_sender_0 (two_cameras 60000 import_ok) false
           fresh_instance camA (Build_sender_info 1920 1080 512 87)
           eq_refl Hptr eq_refl eq_refl Hcount eq_refl eq_refl eq_refl).
Defined.

(** X6.  A discovery attempt that leaves the instance UNBOUND has touched no
    texture and has changed neither the texture pointer, the dimensions nor
    the policy flag; under the explicit-name policy it has changed nothing
    at all. *)
Theorem failed_attempt_keeps_binding h forced c :
  ∃ c' t,
    win_spout_init h forced c = Done tt c' t
    ∧ (initialized c' = false →
         texture c' = texture c ∧ width c' = width c ∧ height c' = height c
         ∧ useFirstSender c' = useFirstSender c
         ∧ imported t = [] ∧ destroyed t = []
         ∧ (senderName c' = senderName c
            ∨ ∃ sender, GetSenderName h 0 = Some sender
                        ∧ senderName c' = text sender)
         ∧ (useFirstSender c = false → c' = c)).
Proof.
  destruct forced; init_exits h c; eexists _, _; (split; [reflexivity |]);
    cbn; intros; try discriminate; repeat split; eauto; congruence.
Qed.

(** ** Creation, reconfiguration and release *)

(** X7.  A creation whose configured name fits returns an UNBOUND instance
    without texture, with the placeholder dimensions, a zero
    [lastCheckTick] and the library handle of [GetSpout], and makes no call
    to the directory or the graphics subsystem.  Its policy is the one the
    settings hold: the first-available flag set before the update is
    overwritten, so settings without the flag key give the explicit-name
    policy. *)
Theorem create_takes_policy_from_settings h settings src :
  Is_true (fits_senderName (obs_data_get_string settings CUSTOM_SPOUT_NAME)) →
  ∃ c0,
    win_spout_create h settings src = Done tt c0 []
    ∧ initialized c0 = false ∧ texture c0 = NULL
    ∧ win_spout_getwidth c0 = 100 ∧ win_spout_getheight c0 = 100
    ∧ lastCheckTick c0 = 0 ∧ spoutptr c0 = GetSpout h ∧ source c0 = src
    ∧ senderName c0 = obs_data_get_string settings CUSTOM_SPOUT_NAME
    ∧ useFirstSender c0
      = obs_data_get_bool settings USE_FIRST_AVAILABLE_SENDER
    ∧ (settings !! USE_FIRST_AVAILABLE_SENDER = None →
         useFirstSender c0 = false).
Proof.
  intros Hfits.
  unfold win_spout_create, win_spout_update, memset_senderName,
    strcpy_senderName.
  destruct (fits_senderName _); [| destruct Hfits]. unfold_M; cbn.
  eexists. split; [reflexivity |]. cbn. repeat split.
  intros Hmissing. unfold obs_data_get_bool. rewrite Hmissing. reflexivity.
Qed.

Lemma create_takes_policy_from_settings_witness :
  Is_true (fits_senderName
             (obs_data_get_string empty_settings CUSTOM_SPOUT_NAME))
  ∧ ∃ c0,
      win_spout_create (no_senders 0) empty_settings 1 = Done tt c0 []
      ∧ initialized c0 = false
      ∧ senderName c0 = "" ∧ useFirstSender c0 = false.
Proof.
  split; [exact I |].
  destruct (create_takes_policy_from_settings (no_senders 0)
              empty_settings 1 I)
    as (c0 & Hrun & Hunbound & _ & _ & _ & _ & _ & _ & Hname & _ & Hflag).
  exists c0. repeat split; auto.
Defined.

(** X8.  Reconfiguring a BOUND instance to an explicit name the directory
    knows, at a time the guard lets through: the old texture is destroyed
    first, then the named sender is looked up and imported; the instance is
    BOUND again with that sender's name, texture and dimensions.  No sender
    name is asked of the directory. *)
Theorem update_rebinds_to_named_sender h settings c info :
  let name := obs_data_get_string settings CUSTOM_SPOUT_NAME in
  Is_true (fits_senderName name) →
  obs_data_get_bool settings USE_FIRST_AVAILABLE_SENDER = false →
  initialized c = true → spoutptr c ≠ NULL → throttled h c = false →
  GetSenderCount h ≠ 0 → GetSenderInfo h name = Some info →
  ∃ c',
    win_spout_update h settings c
    = Done tt c'
        (deinit_calls c
         ++ [Call_GetSenderCount; Call_GetSenderInfo name;
             Call_obs_enter_graphics; Call_gs_texture_destroy NULL;
             Call_gs_texture_open_shared (to_uint32 (info_dxHandle info));
             Call_obs_leave_graphics])
    ∧ initialized c' = true ∧ useFirstSender c' = false
    ∧ senderName c' = name
    ∧ texture c'
      = gs_texture_open_shared h (to_uint32 (info_dxHandle info))
    ∧ win_spout_getwidth c' = to_uint32 (info_width info)
    ∧ win_spout_getheight c' = to_uint32 (info_height info).
Proof.
  intros name Hfits Hflag Hbound Hptr Hguard Hcount Hinfo.
  rewrite win_spout_update_bound by assumption.
  apply Z.eqb_neq in Hptr, Hcount. unfold throttled in Hguard.
  unfold win_spout_init, store_policy, unbound; unfold_M; cbn.
  rewrite Hguard, Hptr, Hflag, Hcount. cbn.
  fold name. rewrite Hinfo. cbn.
  eexists. split; [reflexivity |]. cbn.
  unfold win_spout_getwidth, win_spout_getheight; cbn.
  rewrite !to_uint32_to_int. auto 10.
Qed.

Lemma update_rebinds_to_named_sender_witness :
  ∃ c',
    win_spout_update (two_cameras 60000 import_ok)
      (make_settings false "camB") bound_instance
    = Done tt c'
        ([Call_obs_enter_graphics; Call_gs_texture_destroy 66048;
          Call_obs_leave_graphics; Call_ReleaseReceiver]
         ++ [Call_GetSenderCount; Call_GetSenderInfo "camB";
             Call_obs_enter_graphics; Call_gs_texture_destroy NULL;
             Call_gs_texture_open_shared 768; Call_obs_leave_graphics])
    ∧ initialized c' = true ∧ useFirstSender c' = false
    ∧ senderName c' = "camB"
    ∧ texture c' = 66304
    ∧ win_spout_getwidth c' = 1280 ∧ win_spout_getheight c' = 720.
Proof.
  assert (Hptr : spoutptr bound_instance ≠ NULL) by (cbn; discriminate).
  assert (Hcount : GetSenderCount (two_cameras 60000 import_ok) ≠ 0)
    by (cbn; discriminate).
  exact (update_rebinds_to_named_sender (two_cameras 60000 import_ok)
           (make_settings false "camB") bound_instance
           (Build_sender_info 1280 720 768 87)
           I eq_refl eq_refl Hptr eq_refl Hcount eq_refl).
Defined.

(** X9.  Destroying an instance that has a library handle unbinds it, then
    releases the library and frees the instance: the texture, when there is
    one, is destroyed exactly once and inside the graphics scope,
    [ReleaseReceiver] precedes [Release], and [bfree] is the last call. *)
Theorem destroy_releases_in_order c :
  spoutptr c ≠ NULL →
  ∃ c',
    win_spout_destroy c
    = Done tt c' (deinit_calls c ++ [Call_Release; Call_bfree])
    ∧ texture c' = NULL ∧ initialized c' = false
    ∧ destroyed (deinit_calls c ++ [Call_Release; Call_bfree])
      = (if texture c =? NULL then [] else [texture c])
    ∧ graphics_scoped false (deinit_calls c ++ [Call_Release; Call_bfree])
      = true.
Proof.
  intros Hptr. unfold win_spout_destroy; unfold_M.
  rewrite win_spout_deinit_done by exact Hptr.
  apply Z.eqb_neq in Hptr. cbn. rewrite Hptr. cbn.
  eexists. split; [reflexivity |]. cbn.
  unfold deinit_calls, destroyed.
  destruct (texture c =? NULL) eqn:Htex; cbn; rewrite ?Htex; auto.
Qed.

Lemma destroy_releases_in_order_witness :
  spoutptr bound_instance ≠ NULL
  ∧ ∃ c',
      win_spout_destroy bound_instance
      = Done tt c'
          [Call_obs_enter_graphics; Call_gs_texture_destroy 66048;
           Call_obs_leave_graphics; Call_ReleaseReceiver; Call_Release;
           Call_bfree]
      ∧ texture c' = NULL.
Proof.
  assert (Hptr : spoutptr bound_instance ≠ NULL) by (cbn; discriminate).
  split; [exact Hptr |].
  destruct (destroy_releases_in_order bound_instance Hptr)
    as (c' & Hrun & Htex & _).
  exists c'. auto.
Defined.

(** X10.  When [GetSpout] returned null at creation, the instance never
    binds: whatever callbacks have returned since, it is UNBOUND, its ticks
    and shows make no call, and hiding or destroying it goes through the
    null handle, because [win_spout_deinit] uses the handle before
    [win_spout_destroy] tests it. *)
Theorem null_handle_never_binds h0 settings src c0 t0 script c t :
  GetSpout h0 = NULL →
  win_spout_create h0 settings src = Done tt c0 t0 →
  run script c0 = Done tt c t →
  initialized c = false
  ∧ (∀ h forced, win_spout_init h forced c = Done tt c [])
  ∧ win_spout_hide c = Fault NullDereference
  ∧ win_spout_destroy c = Fault NullDereference.
Proof.
  intros Hnull Hcreate Hrun.
  assert (Hptr : spoutptr c = NULL).
  { apply run_frame in Hrun as [_ ->].
    apply win_spout_create_done in Hcreate as (_ & _ & ->). exact Hnull. }
  assert (Hunbound : initialized c = false).
  { destruct (run_consistent _ _ _ _ _ _ _ _ Hcreate Hrun) as [_ Hbound].
    destruct (initialized c); [| reflexivity].
    destruct (Hbound eq_refl Hptr). }
  split; [exact Hunbound |]. split; [| split].
  - intros h forced. apply Z.eqb_eq in Hptr.
    destruct forced; init_exits h c; congruence.
  - unfold win_spout_hide. apply win_spout_deinit_null, Hptr.
  - unfold win_spout_destroy; unfold_M.
    rewrite win_spout_deinit_null by exact Hptr. reflexivity.
Qed.

Lemma null_handle_never_binds_witness :
  GetSpout (no_spout 0) = NULL
  ∧ win_spout_create (no_spout 0) default_settings 1
    = Done tt orphan_instance []
  ∧ ∃ c t,
      run [(two_cameras 60000 import_ok, cb_tick);
           (two_cameras 60016 import_ok, cb_show)] orphan_instance
      = Done tt c t
      ∧ initialized c = false
      ∧ win_spout_destroy c = Fault NullDereference.
Proof.
  split; [reflexivity |]. split; [reflexivity |].
  eexists _, _. split; [vm_compute; reflexivity |].
  destruct (null_handle_never_binds (no_spout 0) default_settings 1
              orphan_instance []
              [(two_cameras 60000 import_ok, cb_tick);
               (two_cameras 60016 import_ok, cb_show)]
              _ _ eq_refl eq_refl eq_refl)
    as (Hunbound & _ & _ & Hdestroy).
  split; [exact Hunbound | exact Hdestroy].
Defined.

(** X11.  Hiding and then showing an instance that has a library handle
    destroys its texture once (when it had one) and makes exactly one
    discovery attempt, whatever the time between the two; if the instance is
    BOUND afterwards, its texture is the one imported by that attempt. *)
Theorem hide_then_show_rediscovers h1 h2 c :
  spoutptr c ≠ NULL →
  ∃ c' t,
    run [(h1, cb_hide); (h2, cb_show)] c = Done tt c' t
    ∧ attempts t = 1%nat
    ∧ destroyed t = (if texture c =? NULL then [] else [texture c])
    ∧ (initialized c' = true →
         texture c' = gs_texture_open_shared h2 (to_uint32 (dxHandle c'))
         ∧ length (imported t) = 1%nat)
    ∧ (initialized c' = false → texture c' = NULL ∧ imported t = []).
Proof.
  intros Hptr. cbn [run dispatch]. unfold win_spout_hide, win_spout_show.
  unfold_M. rewrite win_spout_deinit_done by exact Hptr.
  assert (Hd : destroyed (deinit_calls c)
               = if texture c =? NULL then [] else [texture c])
    by apply destroyed_deinit_calls.
  assert (Ha : attempts (deinit_calls c) = 0%nat)
    by (unfold deinit_calls; destruct (texture c =? NULL); reflexivity).
  assert (Hi : imported (deinit_calls c) = [])
    by (unfold deinit_calls; destruct (texture c =? NULL); reflexivity).
  set (u := unbound c).
  assert (Hu : initialized u = false) by reflexivity.
  assert (Htex : texture u = NULL) by reflexivity.
  assert (Hptr' : (spoutptr u =? NULL) = false) by (apply Z.eqb_neq, Hptr).
  clearbody u.
  init_exits h2 u; try congruence; eexists _, _;
    (split; [reflexivity |]); rewrite ?app_nil_r;
    unfold attempts, destroyed, imported in *;
    rewrite ?omap_app, ?filter_app, ?length_app, ?Hd, ?Ha, ?Hi; cbn;
    rewrite ?Htex, ?app_nil_r; cbn; repeat split; auto; congruence.
Qed.

Lemma hide_then_show_rediscovers_witness :
  spoutptr bound_instance ≠ NULL
  ∧ ∃ c' t,
      run [(two_cameras 60000 import_ok, cb_hide);
           (two_cameras 60001 import_ok, cb_show)] bound_instance
      = Done tt c' t
      ∧ attempts t = 1%nat ∧ destroyed t = [66048].
Proof.
  assert (Hptr : spoutptr bound_instance ≠ NULL) by (cbn; discriminate).
  split; [exact Hptr |].
  destruct (hide_then_show_rediscovers (two_cameras 60000 import_ok)
              (two_cameras 60001 import_ok) bound_instance Hptr)
    as (c' & t & Hrun & Ha & Hd & _).
  exists c', t. auto.
Defined.

(** ** Sequences of callbacks *)

Lemma attempts_app t1 t2 : attempts (t1 ++ t2) = (attempts t1 + attempts t2)%nat.
Proof. unfold attempts. rewrite filter_app, length_app. reflexivity. Qed.

Lemma lookups_app t1 t2 : lookups (t1 ++ t2) = lookups t1 ++ lookups t2.
Proof. apply omap_app. Qed.

Lemma destroyed_app t1 t2 : destroyed (t1 ++ t2) = destroyed t1 ++ destroyed t2.
Proof. apply omap_app. Qed.

Lemma imported_app t1 t2 : imported (t1 ++ t2) = imported t1 ++ imported t2.
Proof. apply omap_app. Qed.

Lemma graphics_scoped_app t1 : ∀ inside t2,
  graphics_scoped inside t1 = true →
  graphics_scoped false t2 = true →
  graphics_scoped inside (t1 ++ t2) = true.
Proof.
  induction t1 as [| e t1 IH]; intros inside t2 H1 H2.
  - destruct inside; [discriminate | exact H2].
  - destruct e, inside; cbn in *; try discriminate; apply IH; assumption.
Qed.

(** The calls of a render: draws only. *)
Lemma draws_quiet passes tex :
  attempts (replicate passes (Call_obs_source_draw tex)) = 0%nat
  ∧ lookups (replicate passes (Call_obs_source_draw tex)) = []
  ∧ destroyed (replicate passes (Call_obs_source_draw tex)) = []
  ∧ imported (replicate passes (Call_obs_source_draw tex)) = []
  ∧ graphics_scoped false (replicate passes (Call_obs_source_draw tex))
    = true.
Proof. induction passes as [| n IH]; cbn; auto. Qed.

Lemma win_spout_render_quiet h c :
  ∃ t, win_spout_render h c = Done tt c t
       ∧ attempts t = 0%nat ∧ lookups t = [] ∧ destroyed t = []
       ∧ imported t = [] ∧ graphics_scoped false t = true.
Proof.
  unfold win_spout_render; unfold_M.
  destruct (active c), (initialized c), (texture c =? NULL); cbn;
    try (eexists; split; [reflexivity |]; cbn; auto 10).
  rewrite draw_passes_done. eexists. split; [reflexivity |].
  apply draws_quiet.
Qed.

(** A relation between the instance before, the calls made and the instance
    after that every step of the plugin satisfies is satisfied by every
    sequence of callbacks. *)
Section Relation.

Variable R : win_spout → list event → win_spout → Prop.

Hypothesis R_refl : ∀ c, R c [] c.
Hypothesis R_trans : ∀ c1 t1 c2 t2 c3,
  R c1 t1 c2 → R c2 t2 c3 → R c1 (t1 ++ t2) c3.
Hypothesis R_init : ∀ h forced c c' t,
  win_spout_init h forced c = Done tt c' t → R c t c'.
Hypothesis R_deinit : ∀ c, R c (deinit_calls c) (unbound c).
Hypothesis R_store : ∀ settings c, R c [] (store_policy settings c).
Hypothesis R_active : ∀ b c, R c [] (set_active b c).
Hypothesis R_draw : ∀ passes c,
  R c (replicate passes (Call_obs_source_draw (texture c))) c.

Lemma dispatch_related h cb c c' t :
  dispatch h cb c = Done tt c' t → R c t c'.
Proof.
  destruct cb as [settings | | | |]; cbn [dispatch].
  - destruct (fits_senderName
                (obs_data_get_string settings CUSTOM_SPOUT_NAME)) eqn:Hfits;
      [| rewrite win_spout_update_overrun by exact Hfits; discriminate].
    apply Is_true_true in Hfits.
    destruct (initialized c) eqn:Hstate.
    + destruct (Z.eq_dec (spoutptr c) NULL) as [Hptr | Hptr].
      * destruct (win_spout_update_bound_null h settings c Hstate Hptr)
          as [f ->]. discriminate.
      * rewrite win_spout_update_bound by assumption.
        destruct (win_spout_init h false _) as [[] c1 t1 |] eqn:Hinit;
          [| discriminate].
        intros [= <- <-].
        change (deinit_calls c) with ([] ++ deinit_calls (store_policy settings c)).
        rewrite <- app_assoc.
        eapply R_trans; [apply R_store |].
        eapply R_trans; [apply R_deinit | eapply R_init; exact Hinit].
    + rewrite win_spout_update_unbound by assumption.
      intros [= <- <-]. apply R_store.
  - apply R_init.
  - unfold win_spout_hide.
    destruct (Z.eq_dec (spoutptr c) NULL) as [Hptr | Hptr].
    + rewrite win_spout_deinit_null by exact Hptr. discriminate.
    + rewrite win_spout_deinit_done by exact Hptr.
      intros [= <- <-]. apply R_deinit.
  - unfold win_spout_tick; unfold_M; cbn.
    destruct (initialized c); cbn; [intros [= <- <-]; apply R_active |].
    destruct (win_spout_init h false _) as [[] c1 t1 |] eqn:Hinit;
      [| discriminate].
    intros [= <- <-].
    change t1 with ([] ++ t1).
    eapply R_trans; [apply R_active | eapply R_init; exact Hinit].
  - unfold win_spout_render; unfold_M.
    destruct (active c), (initialized c), (texture c =? NULL); cbn;
      try (intros [= <- <-]; apply R_refl).
    rewrite draw_passes_done. intros [= <- <-]. apply R_draw.
Qed.

Lemma run_related script : ∀ c c' t,
  run script c = Done tt c' t → R c t c'.
Proof.
  induction script as [| [h cb] rest IH]; cbn [run]; intros c c' t.
  - intros [= <- <-]. apply R_refl.
  - unfold_M.
    destruct (dispatch h cb c) as [[] c1 t1 |] eqn:Hd; [| discriminate].
    destruct (run rest c1) as [[] c2 t2 |] eqn:Hr; [| discriminate].
    intros [= <- <-].
    eapply R_trans; [eapply dispatch_related; exact Hd | apply IH, Hr].
Qed.

End Relation.

(** X12.  Once BOUND, ticks and renders never query the directory again and
    never touch the binding: whatever the directory answers meanwhile, the
    instance stays BOUND with the texture, the dimensions and the name it
    has; no texture is imported or destroyed. *)
Theorem bound_frames_never_requery script : ∀ c,
  only_frames script = true → initialized c = true →
  ∃ c' t,
    run script c = Done tt c' t
    ∧ attempts t = 0%nat ∧ lookups t = []
    ∧ imported t = [] ∧ destroyed t = []
    ∧ initialized c' = true ∧ texture c' = texture c
    ∧ width c' = width c ∧ height c' = height c
    ∧ senderName c' = senderName c.
Proof.
  induction script as [| [h cb] rest IH]; intros c Hframes Hbound.
  - eexists _, _. split; [reflexivity |]. cbn. auto 10.
  - cbn in Hframes. apply andb_true_iff in Hframes as [Hcb Hrest].
    cbn [run]. unfold_M.
    destruct cb; try discriminate; cbn [dispatch].
    + unfold win_spout_tick; unfold_M; cbn. rewrite Hbound; cbn.
      destruct (IH (set_active (obs_source_active h (source c)) c)
                  Hrest Hbound)
        as (c' & t & -> & Ha & Hl & Hi & Hd & Hb & Htex & Hw & Hh & Hn).
      eexists _, _. split; [reflexivity |]. cbn in *. auto 10.
    + destruct (win_spout_render_quiet h c)
        as (t1 & -> & Ha1 & Hl1 & Hd1 & Hi1 & _).
      destruct (IH c Hrest Hbound)
        as (c' & t & -> & Ha & Hl & Hi & Hd & Hb & Htex & Hw & Hh & Hn).
      eexists _, _. split; [reflexivity |].
      rewrite attempts_app, lookups_app, imported_app, destroyed_app.
      rewrite Ha1, Hl1, Hd1, Hi1, Ha, Hl, Hi, Hd. auto 10.
Qed.

Lemma bound_frames_never_requery_witness :
  only_frames [(no_senders 60000, cb_tick); (no_senders 60016, cb_render);
               (no_senders 70000, cb_tick)] = true
  ∧ initialized bound_instance = true
  ∧ ∃ c' t,
      run [(no_senders 60000, cb_tick); (no_senders 60016, cb_render);
           (no_senders 70000, cb_tick)] bound_instance
      = Done tt c' t
      ∧ attempts t = 0%nat ∧ initialized c' = true
      ∧ texture c' = 66048.
Proof.
  split; [reflexivity |]. split; [reflexivity |].
  destruct (bound_frames_never_requery
              [(no_senders 60000, cb_tick); (no_senders 60016, cb_render);
               (no_senders 70000, cb_tick)] bound_instance eq_refl eq_refl)
    as (c' & t & Hrun & Ha & _ & _ & _ & Hb & Htex & _).
  exists c', t. auto.
Defined.

(** X13.  Over any sequence of callbacks, the plugin never hands more
    textures to [gs_texture_destroy] than it imported: the non-null
    textures destroyed, plus the one held at the end, are at most the
    imports made plus the one held at the start. *)
Theorem never_destroys_more_than_imported script c c' t :
  run script c = Done tt c' t →
  (length (destroyed t) + holds_texture c'
   ≤ length (imported t) + holds_texture c)%nat.
Proof.
  apply (run_related
           (λ x t y, (length (destroyed t) + holds_texture y
                      ≤ length (imported t) + holds_texture x)%nat)).
  - intros x. cbn. lia.
  - intros c1 t1 c2 t2 c3 H1 H2.
    rewrite destroyed_app, imported_app, !length_app. lia.
  - intros h forced x x' t'.
    destruct forced; init_exits h x; intros [= <- <-];
      unfold holds_texture; cbn;
      repeat match goal with
        | |- context [if ?b then _ else _] => destruct b
        end; cbn; lia.
  - intros x. unfold deinit_calls, holds_texture, destroyed, imported. cbn.
    destruct (texture x =? NULL) eqn:Htex; cbn; rewrite ?Htex; cbn; lia.
  - intros s x. cbn. unfold holds_texture. cbn. lia.
  - intros b x. cbn. unfold holds_texture. cbn. lia.
  - intros n x.
    destruct (draws_quiet n (texture x)) as (_ & _ & -> & -> & _). cbn. lia.
Qed.

Lemma never_destroys_more_than_imported_witness :
  ∃ c' t,
    run [(two_cameras 60000 import_ok, cb_tick);
         (two_cameras 60016 import_ok, cb_update (make_settings false "camB"));
         (two_cameras 60032 import_ok, cb_hide)] fresh_instance
    = Done tt c' t
    ∧ destroyed t = [66048; 66304] ∧ imported t = [512; 768]
    ∧ (length (destroyed t) + holds_texture c'
       ≤ length (imported t) + holds_texture fresh_instance)%nat.
Proof.
  eexists _, _. split; [vm_compute; reflexivity |].
  split; [reflexivity |]. split; [reflexivity |].
  eapply (never_destroys_more_than_imported
           [(two_cameras 60000 import_ok, cb_tick);
            (two_cameras 60016 import_ok,
             cb_update (make_settings false "camB"));
            (two_cameras 60032 import_ok, cb_hide)]).
  vm_compute. reflexivity.
Defined.

(** X14.  Over any sequence of callbacks, every [gs_texture_destroy] and
    [gs_texture_open_shared] is made between an [obs_enter_graphics] and the
    [obs_leave_graphics] that follows it; the two alternate and the scope
    is closed at the end. *)
Theorem texture_calls_inside_graphics_scope script c c' t :
  run script c = Done tt c' t → graphics_scoped false t = true.
Proof.
  apply (run_related (λ _ t _, graphics_scoped false t = true)).
  - reflexivity.
  - intros _ t1 _ t2 _. apply graphics_scoped_app.
  - intros h forced x x' t'.
    destruct forced; init_exits h x; intros [= <- <-]; reflexivity.
  - intros x. unfold deinit_calls.
    destruct (texture x =? NULL); reflexivity.
  - reflexivity.
  - reflexivity.
  - intros n x. apply draws_quiet.
Qed.

Lemma texture_calls_inside_graphics_scope_witness :
  ∃ c' t,
    run [(two_cameras 60000 import_ok, cb_tick);
         (two_cameras 60016 import_ok, cb_render);
         (two_cameras 60032 import_ok, cb_update (make_settings false "camB"));
         (two_cameras 60048 import_ok, cb_hide)] fresh_instance
    = Done tt c' t
    ∧ length (destroyed t) = 2%nat
    ∧ graphics_scoped false t = true.
Proof.
  eexists _, _. split; [vm_compute; reflexivity |].
  split; [reflexivity |].
  eapply (texture_calls_inside_graphics_scope
           [(two_cameras 60000 import_ok, cb_tick);
            (two_cameras 60016 import_ok, cb_render);
            (two_cameras 60032 import_ok,
             cb_update (make_settings false "camB"));
            (two_cameras 60048 import_ok, cb_hide)] fresh_instance).
  vm_compute. reflexivity.
Defined.

(** A callback returns when the instance has a library handle and, for an
    update, the configured name fits; the handle is kept. *)
Lemma dispatch_returns h cb c :
  spoutptr c ≠ NULL →
  script_fits [(h, cb)] = true →
  ∃ c' t, dispatch h cb c = Done tt c' t ∧ spoutptr c' = spoutptr c.
Proof.
  intros Hptr Hfits. cbn in Hfits. rewrite andb_true_r in Hfits.
  destruct cb as [settings | | | |]; cbn [dispatch].
  - apply Is_true_true in Hfits.
    destruct (initialized c) eqn:Hstate.
    + rewrite win_spout_update_bound by assumption.
      destruct (win_spout_init_returns h false
                  (unbound (store_policy settings c))) as (c' & t & Hinit).
      rewrite Hinit. eexists _, _. split; [reflexivity |].
      apply win_spout_init_frame in Hinit as (_ & -> & _). reflexivity.
    + rewrite win_spout_update_unbound by assumption. eauto.
  - destruct (win_spout_init_returns h true c) as (c' & t & Hinit).
    unfold win_spout_show. rewrite Hinit. eexists _, _.
    split; [reflexivity |].
    apply win_spout_init_frame in Hinit as (_ & -> & _). reflexivity.
  - unfold win_spout_hide. rewrite win_spout_deinit_done by exact Hptr.
    eauto.
  - unfold win_spout_tick; unfold_M; cbn.
    destruct (initialized c); cbn; [eauto |].
    destruct (win_spout_init_returns h false
                (set_active (obs_source_active h (source c)) c))
      as (c' & t & Hinit).
    rewrite Hinit. eexists _, _. split; [reflexivity |].
    apply win_spout_init_frame in Hinit as (_ & -> & _). reflexivity.
  - destruct (win_spout_render_returns h c) as [t ->]. eauto.
Qed.

Lemma run_returns script : ∀ c,
  spoutptr c ≠ NULL → script_fits script = true →
  ∃ c' t, run script c = Done tt c' t.
Proof.
  induction script as [| [h cb] rest IH]; intros c Hptr Hfits.
  - eexists _, _. reflexivity.
  - cbn in Hfits. apply andb_true_iff in Hfits as [Hcb Hrest].
    destruct (dispatch_returns h cb c Hptr) as (c1 & t1 & Hd & Hkeep).
    { cbn. rewrite Hcb. reflexivity. }
    destruct (IH c1) as (c2 & t2 & Hr); [congruence | exact Hrest |].
    cbn [run]. unfold_M. rewrite Hd, Hr. eauto.
Qed.

(** X15.  With a library handle from [GetSpout] and configured names of at
    most 255 characters, creation followed by any sequence of updates,
    shows, hides, ticks and renders returns without running into a null
    handle or over the name buffer.  The instance reached holds no texture
    while UNBOUND, holds a name that fits its buffer, and still has the
    handle and the source it was created with. *)
Theorem callbacks_never_fault h0 settings src script :
  GetSpout h0 ≠ NULL →
  Is_true (fits_senderName (obs_data_get_string settings CUSTOM_SPOUT_NAME)) →
  script_fits script = true →
  ∃ c0 c t,
    win_spout_create h0 settings src = Done tt c0 []
    ∧ run script c0 = Done tt c t
    ∧ (initialized c = false → texture c = NULL)
    ∧ Is_true (fits_senderName (senderName c))
    ∧ spoutptr c = GetSpout h0 ∧ source c = src.
Proof.
  intros Hspout Hfits Hscript.
  destruct (win_spout_create h0 settings src) as [[] c0 t0 |] eqn:Hcreate.
  - pose proof Hcreate as Hdone.
    apply win_spout_create_done in Hdone as (_ & -> & Hc0).
    assert (Hptr : spoutptr c0 ≠ NULL) by (rewrite Hc0; exact Hspout).
    destruct (run_returns script c0 Hptr Hscript) as (c & t & Hrun).
    exists c0, c, t. split; [reflexivity |]. split; [exact Hrun |].
    split; [apply (run_consistent _ _ _ _ _ _ _ _ Hcreate Hrun) |].
    split.
    + apply (run_name_fits _ _ _ _ Hrun). rewrite Hc0. exact Hfits.
    + split.
      * apply run_frame in Hrun as [_ ->]. rewrite Hc0. reflexivity.
      * apply (run_preserves (λ x, source x = src)) with (5 := Hrun);
          cbn; auto.
        -- intros h forced x x' t' Hinit Hx.
           apply win_spout_init_frame in Hinit as (_ & _ & -> & _). exact Hx.
        -- rewrite Hc0. reflexivity.
  - exfalso. revert Hcreate.
    unfold win_spout_create, win_spout_update, memset_senderName,
      strcpy_senderName.
    destruct (fits_senderName _); [| destruct Hfits].
    unfold_M; cbn. discriminate.
Qed.

Lemma callbacks_never_fault_witness :
  GetSpout (no_senders 0) ≠ NULL
  ∧ script_fits
      [(two_cameras 60000 import_ok, cb_tick);
       (two_cameras 60016 import_fails,
        cb_update (make_settings false "camB"));
       (no_senders 60032, cb_hide); (no_senders 60048, cb_show)] = true
  ∧ ∃ c0 c t,
      win_spout_create (no_senders 0) default_settings 1 = Done tt c0 []
      ∧ run [(two_cameras 60000 import_ok, cb_tick);
             (two_cameras 60016 import_fails,
              cb_update (make_settings false "camB"));
             (no_senders 60032, cb_hide); (no_senders 60048, cb_show)] c0
        = Done tt c t
      ∧ (initialized c = false → texture c = NULL)
      ∧ spoutptr c = 4096.
Proof.
  assert (Hspout : GetSpout (no_senders 0) ≠ NULL) by (cbn; discriminate).
  split; [exact Hspout |]. split; [reflexivity |].
  destruct (callbacks_never_fault (no_senders 0) default_settings 1
              [(two_cameras 60000 import_ok, cb_tick);
               (two_cameras 60016 import_fails,
                cb_update (make_settings false "camB"));
               (no_senders 60032, cb_hide); (no_senders 60048, cb_show)]
              Hspout I eq_refl)
    as (c0 & c & t & Hcreate & Hrun & Hinv & _ & Hptr & _).
  exists c0, c, t. auto.
Defined.

(** ** The settings callbacks *)

(** A key differs from another, from a hypothesis in either direction. *)
Ltac key_ne :=
  solve [ discriminate
        | assumption
        | let Heq := fresh in
          intros Heq;
          match goal with
          | H : _ ≠ _ |- _ => apply H; first [exact Heq | symmetry; exact Heq]
          end ].

Lemma get_string_set_string d key s :
  obs_data_get_string (obs_data_set_string d key s) key = s.
Proof.
  unfold obs_data_get_string, obs_data_set_string.
  rewrite lookup_insert_eq. reflexivity.
Qed.

Lemma get_string_set_other d key key' item :
  key ≠ key' →
  obs_data_get_string (<[key' := item]> d) key = obs_data_get_string d key.
Proof.
  intros Hne. unfold obs_data_get_string.
  rewrite lookup_insert_ne by key_ne. reflexivity.
Qed.

Lemma get_bool_set_bool d key b :
  obs_data_get_bool (obs_data_set_bool d key b) key = b.
Proof.
  unfold obs_data_get_bool, obs_data_set_bool.
  rewrite lookup_insert_eq. reflexivity.
Qed.

Lemma get_bool_set_other d key key' item :
  key ≠ key' →
  obs_data_get_bool (<[key' := item]> d) key = obs_data_get_bool d key.
Proof.
  intros Hne. unfold obs_data_get_bool.
  rewrite lookup_insert_ne by key_ne. reflexivity.
Qed.

Lemma length_zero_empty (s : string) :
  (String.length s =? 0)%nat = true ↔ s = "".
Proof.
  destruct s; cbn; split; intros H; try reflexivity; discriminate.
Qed.

Lemma on_sender_list_selected_none settings :
  obs_data_get_string settings SPOUT_SENDER_LIST = "" →
  on_sender_list_selected settings = (true, settings).
Proof.
  intros Hsel. unfold on_sender_list_selected. rewrite Hsel. reflexivity.
Qed.

Lemma on_sender_list_selected_some settings :
  obs_data_get_string settings SPOUT_SENDER_LIST ≠ "" →
  on_sender_list_selected settings
  = (true,
     obs_data_set_bool
       (obs_data_set_string settings CUSTOM_SPOUT_NAME
          (obs_data_get_string settings SPOUT_SENDER_LIST))
       USE_FIRST_AVAILABLE_SENDER false).
Proof.
  intros Hsel. unfold on_sender_list_selected.
  destruct (String.length _ =? 0)%nat eqn:Hlen; [| reflexivity].
  apply length_zero_empty in Hlen. destruct (Hsel Hlen).
Qed.

(** X16.  The callback of the sender list always returns true.  With no
    selection it leaves the settings as they are; with a selection it makes
    the selected name the configured name, switches first-available off and
    touches no other key.  Applying it again changes nothing more. *)
Theorem sender_list_selection_sets_name settings :
  let selected := obs_data_get_string settings SPOUT_SENDER_LIST in
  let settings' := snd (on_sender_list_selected settings) in
  fst (on_sender_list_selected settings) = true
  ∧ (selected = "" → settings' = settings)
  ∧ (selected ≠ "" →
       obs_data_get_string settings' CUSTOM_SPOUT_NAME = selected
       ∧ obs_data_get_bool settings' USE_FIRST_AVAILABLE_SENDER = false
       ∧ ∀ key, key ≠ CUSTOM_SPOUT_NAME →
                key ≠ USE_FIRST_AVAILABLE_SENDER →
                settings' !! key = settings !! key)
  ∧ snd (on_sender_list_selected settings') = settings'.
Proof.
  cbn zeta.
  destruct (decide (obs_data_get_string settings SPOUT_SENDER_LIST = ""))
    as [Hsel | Hsel].
  - rewrite on_sender_list_selected_none by exact Hsel. cbn [fst snd].
    rewrite on_sender_list_selected_none by exact Hsel.
    split; [reflexivity |]. split; [reflexivity |].
    split; [intros Hne; destruct (Hne Hsel) | reflexivity].
  - rewrite on_sender_list_selected_some by exact Hsel. cbn [fst snd].
    set (selected := obs_data_get_string settings SPOUT_SENDER_LIST) in *.
    split; [reflexivity |]. split; [intros Hempty; destruct (Hsel Hempty) |].
    split.
    + intros _. unfold obs_data_set_bool, obs_data_set_string.
      split; [| split].
      * rewrite get_string_set_other by discriminate.
        apply get_string_set_string.
      * apply get_bool_set_bool.
      * intros key Hname Hflag.
        rewrite !lookup_insert_ne by key_ne. reflexivity.
    + assert (Hkept : obs_data_get_string
                        (obs_data_set_bool
                           (obs_data_set_string settings CUSTOM_SPOUT_NAME
                              selected)
                           USE_FIRST_AVAILABLE_SENDER false)
                        SPOUT_SENDER_LIST = selected).
      { unfold obs_data_set_bool, obs_data_set_string.
        rewrite !get_string_set_other by discriminate. reflexivity. }
      rewrite on_sender_list_selected_some by (rewrite Hkept; exact Hsel).
      cbn [snd]. rewrite Hkept.
      unfold obs_data_set_bool, obs_data_set_string.
      apply map_eq. intros key.
      destruct (decide (key = USE_FIRST_AVAILABLE_SENDER)) as [-> | Hflag];
        [rewrite !lookup_insert_eq; reflexivity |].
      rewrite !(lookup_insert_ne _ USE_FIRST_AVAILABLE_SENDER) by key_ne.
      destruct (decide (key = CUSTOM_SPOUT_NAME)) as [-> | Hname];
        [rewrite !lookup_insert_eq; reflexivity |].
      rewrite !lookup_insert_ne by key_ne. reflexivity.
Qed.

(** X17.  After the callback of the sender list has taken a selection that
    fits the name buffer, an update of an UNBOUND instance stores the
    explicit-name policy for the selected sender without any call, and every
    later discovery attempt looks up the selected name only. *)
Theorem selected_sender_is_followed h h' forced settings c :
  let selected := obs_data_get_string settings SPOUT_SENDER_LIST in
  selected ≠ "" → Is_true (fits_senderName selected) →
  initialized c = false →
  ∃ c1 c2 t,
    win_spout_update h (snd (on_sender_list_selected settings)) c
    = Done tt c1 []
    ∧ useFirstSender c1 = false ∧ senderName c1 = selected
    ∧ win_spout_init h' forced c1 = Done tt c2 t
    ∧ senderName c2 = selected
    ∧ ∀ n, n ∈ lookups t → n = selected.
Proof.
  intros selected Hsel Hfits Hunbound.
  rewrite on_sender_list_selected_some by exact Hsel. cbn [snd].
  fold selected.
  set (settings' := obs_data_set_bool _ _ _).
  assert (Hname : obs_data_get_string settings' CUSTOM_SPOUT_NAME = selected).
  { unfold settings', obs_data_set_bool, obs_data_set_string.
    rewrite get_string_set_other by discriminate.
    apply get_string_set_string. }
  assert (Hflag : obs_data_get_bool settings' USE_FIRST_AVAILABLE_SENDER
                  = false) by apply get_bool_set_bool.
  rewrite win_spout_update_unbound;
    [| rewrite Hname; exact Hfits | exact Hunbound].
  set (c1 := store_policy settings' c).
  assert (H1 : useFirstSender c1 = false) by exact Hflag.
  assert (H2 : senderName c1 = selected) by exact Hname.
  assert (H3 : initialized c1 = false) by exact Hunbound.
  exists c1. clearbody c1.
  destruct forced; init_exits h' c1; try congruence;
    eexists _, _; (split; [reflexivity |]); (split; [exact H1 |]);
    (split; [exact H2 |]); (split; [reflexivity |]); cbn;
    (split; [exact H2 |]); intros; split_elem_of; congruence.
Qed.

Lemma selected_sender_is_followed_witness :
  obs_data_get_string camB_selected SPOUT_SENDER_LIST ≠ ""
  ∧ Is_true (fits_senderName
               (obs_data_get_string camB_selected SPOUT_SENDER_LIST))
  ∧ initialized fresh_instance = false
  ∧ ∃ c1 c2 t,
      win_spout_update (no_senders 60000)
        (snd (on_sender_list_selected camB_selected)) fresh_instance
      = Done tt c1 []
      ∧ useFirstSender c1 = false ∧ senderName c1 = "camB"
      ∧ win_spout_init (two_cameras 60016 import_ok) false c1 = Done tt c2 t
      ∧ senderName c2 = "camB".
Proof.
  assert (Hsel : obs_data_get_string camB_selected SPOUT_SENDER_LIST ≠ "")
    by (vm_compute; discriminate).
  split; [exact Hsel |]. split; [exact I |]. split; [reflexivity |].
  destruct (selected_sender_is_followed (no_senders 60000)
              (two_cameras 60016 import_ok) false camB_selected
              fresh_instance Hsel I eq_refl)
    as (c1 & c2 & t & Hupd & Hflag & Hname & Hinit & Hname2 & _).
  exists c1, c2, t. auto 10.
Defined.

(** X18.  The callback of the check box always returns true and never
    changes the flag.  With the flag off it empties the configured name and
    touches no other key; with the flag on it changes nothing.  Applying
    it again changes nothing more. *)
Theorem toggle_clears_name_when_flag_off settings :
  let settings' := snd (on_toggle_first_available settings) in
  fst (on_toggle_first_available settings) = true
  ∧ obs_data_get_bool settings' USE_FIRST_AVAILABLE_SENDER
    = obs_data_get_bool settings USE_FIRST_AVAILABLE_SENDER
  ∧ (obs_data_get_bool settings USE_FIRST_AVAILABLE_SENDER = false →
       obs_data_get_string settings' CUSTOM_SPOUT_NAME = ""
       ∧ ∀ key, key ≠ CUSTOM_SPOUT_NAME →
                settings' !! key = settings !! key)
  ∧ (obs_data_get_bool settings USE_FIRST_AVAILABLE_SENDER = true →
       settings' = settings)
  ∧ snd (on_toggle_first_available settings') = settings'.
Proof.
  cbn zeta. unfold on_toggle_first_available.
  destruct (obs_data_get_bool settings USE_FIRST_AVAILABLE_SENDER) eqn:Hflag;
    cbn.
  - rewrite Hflag. cbn. repeat split; auto. discriminate.
  - unfold obs_data_set_string.
    rewrite get_bool_set_other by discriminate. rewrite Hflag. cbn.
    split; [reflexivity |]. split; [reflexivity |].
    split; [| split; [discriminate | apply insert_insert_eq]].
    intros _. split; [apply get_string_set_string |].
    intros key Hname. rewrite lookup_insert_ne by key_ne. reflexivity.
Qed.

(** X19.  An empty explicit name is a selection like any other: after the
    check box callback has emptied the name with the flag off, an update of
    an UNBOUND instance that has a library handle stores the empty name
    under the explicit-name policy without any call, and a show with a
    non-zero sender count then looks up the empty name. *)
Theorem emptied_name_is_looked_up h h' settings c :
  obs_data_get_bool settings USE_FIRST_AVAILABLE_SENDER = false →
  initialized c = false → spoutptr c ≠ NULL → GetSenderCount h' ≠ 0 →
  ∃ c1 c2 t,
    win_spout_update h (snd (on_toggle_first_available settings)) c
    = Done tt c1 []
    ∧ useFirstSender c1 = false ∧ senderName c1 = ""
    ∧ win_spout_show h' c1 = Done tt c2 t
    ∧ lookups t = [""].
Proof.
  intros Hflag Hunbound Hptr Hcount.
  unfold on_toggle_first_available. rewrite Hflag. cbn [negb snd].
  set (settings' := obs_data_set_string settings CUSTOM_SPOUT_NAME "").
  assert (Hname : obs_data_get_string settings' CUSTOM_SPOUT_NAME = "")
    by apply get_string_set_string.
  assert (Hflag' : obs_data_get_bool settings' USE_FIRST_AVAILABLE_SENDER
                   = false).
  { unfold settings', obs_data_set_string.
    rewrite get_bool_set_other by discriminate. exact Hflag. }
  rewrite win_spout_update_unbound;
    [| rewrite Hname; exact I | exact Hunbound].
  set (c1 := store_policy settings' c).
  assert (H1 : useFirstSender c1 = false) by exact Hflag'.
  assert (H2 : senderName c1 = "") by exact Hname.
  assert (H3 : initialized c1 = false) by exact Hunbound.
  assert (H4 : (spoutptr c1 =? NULL) = false) by (apply Z.eqb_neq, Hptr).
  apply Z.eqb_neq in Hcount.
  exists c1. clearbody c1. unfold win_spout_show.
  init_exits h' c1; try congruence;
    eexists _, _; (split; [reflexivity |]); (split; [exact H1 |]);
    (split; [exact H2 |]); (split; [reflexivity |]); cbn;
    rewrite H2; reflexivity.
Qed.

Lemma emptied_name_is_looked_up_witness :
  obs_data_get_bool (make_settings false "camB") USE_FIRST_AVAILABLE_SENDER
  = false
  ∧ initialized fresh_instance = false ∧ spoutptr fresh_instance ≠ NULL
  ∧ GetSenderCount (two_cameras 60016 import_ok) ≠ 0
  ∧ ∃ c1 c2 t,
      win_spout_update (no_senders 60000)
        (snd (on_toggle_first_available (make_settings false "camB")))
        fresh_instance
      = Done tt c1 []
      ∧ senderName c1 = ""
      ∧ win_spout_show (two_cameras 60016 import_ok) c1 = Done tt c2 t
      ∧ lookups t = [""].
Proof.
  assert (Hptr : spoutptr fresh_instance ≠ NULL) by (cbn; discriminate).
  assert (Hcount : GetSenderCount (two_cameras 60016 import_ok) ≠ 0)
    by (cbn; discriminate).
  split; [reflexivity |]. split; [reflexivity |]. split; [exact Hptr |].
  split; [exact Hcount |].
  destruct (emptied_name_is_looked_up (no_senders 60000)
              (two_cameras 60016 import_ok) (make_settings false "camB")
              fresh_instance eq_refl eq_refl Hptr Hcount)
    as (c1 & c2 & t & Hupd & _ & Hname & Hshow & Hlook).
  exists c1, c2, t. auto.
Defined.

(** ** The defaults *)

(** X20.  The defaults give a key without value the first-available flag
    and the empty name, keep every value the settings hold, and setting
    them twice is setting them once.  A creation under the defaults of
    settings that hold neither key follows the first available sender. *)
Theorem defaults_give_first_available settings :
  (settings !! USE_FIRST_AVAILABLE_SENDER = None →
     obs_data_get_bool (win_spout_defaults settings)
       USE_FIRST_AVAILABLE_SENDER = true)
  ∧ (settings !! CUSTOM_SPOUT_NAME = None →
       obs_data_get_string (win_spout_defaults settings) CUSTOM_SPOUT_NAME
       = "")
  ∧ (∀ key item, settings !! key = Some item →
       win_spout_defaults settings !! key = Some item)
  ∧ win_spout_defaults (win_spout_defaults settings)
    = win_spout_defaults settings
  ∧ (settings !! USE_FIRST_AVAILABLE_SENDER = None →
     settings !! CUSTOM_SPOUT_NAME = None →
     ∀ h src, ∃ c0,
       win_spout_create h (win_spout_defaults settings) src = Done tt c0 []
       ∧ useFirstSender c0 = true ∧ senderName c0 = "").
Proof.
  assert (Hflag : settings !! USE_FIRST_AVAILABLE_SENDER = None →
            obs_data_get_bool (win_spout_defaults settings)
              USE_FIRST_AVAILABLE_SENDER = true).
  { intros Hnone.
    unfold win_spout_defaults, obs_data_set_default_bool,
      obs_data_set_default_string.
    destruct (settings !! CUSTOM_SPOUT_NAME) eqn:Hname.
    - rewrite Hnone. apply get_bool_set_bool.
    - rewrite lookup_insert_ne by discriminate. rewrite Hnone.
      apply get_bool_set_bool. }
  assert (Hname : settings !! CUSTOM_SPOUT_NAME = None →
            obs_data_get_string (win_spout_defaults settings)
              CUSTOM_SPOUT_NAME = "").
  { intros Hnone.
    unfold win_spout_defaults, obs_data_set_default_bool,
      obs_data_set_default_string.
    rewrite Hnone. rewrite lookup_insert_ne by discriminate.
    destruct (settings !! USE_FIRST_AVAILABLE_SENDER).
    - apply get_string_set_string.
    - rewrite get_string_set_other by discriminate.
      apply get_string_set_string. }
  split; [exact Hflag |]. split; [exact Hname |]. split; [| split].
  - intros key item Hkey.
    unfold win_spout_defaults, obs_data_set_default_bool,
      obs_data_set_default_string.
    destruct (settings !! CUSTOM_SPOUT_NAME) eqn:H1.
    + destruct (settings !! USE_FIRST_AVAILABLE_SENDER) eqn:H2;
        [exact Hkey |].
      rewrite lookup_insert_ne by (intros <-; congruence). exact Hkey.
    + rewrite (lookup_insert_ne _ CUSTOM_SPOUT_NAME USE_FIRST_AVAILABLE_SENDER)
        by discriminate.
      destruct (settings !! USE_FIRST_AVAILABLE_SENDER) eqn:H2.
      * rewrite lookup_insert_ne by (intros <-; congruence). exact Hkey.
      * rewrite !lookup_insert_ne by (intros <-; congruence). exact Hkey.
  - unfold win_spout_defaults, obs_data_set_default_bool,
      obs_data_set_default_string.
    destruct (settings !! CUSTOM_SPOUT_NAME) eqn:H1.
    + destruct (settings !! USE_FIRST_AVAILABLE_SENDER) eqn:H2.
      * rewrite H1, H2. reflexivity.
      * rewrite lookup_insert_ne by discriminate. rewrite H1.
        rewrite lookup_insert_eq. reflexivity.
    + rewrite (lookup_insert_ne _ CUSTOM_SPOUT_NAME USE_FIRST_AVAILABLE_SENDER)
        by discriminate.
      destruct (settings !! USE_FIRST_AVAILABLE_SENDER) eqn:H2.
      * rewrite lookup_insert_eq.
        rewrite lookup_insert_ne by discriminate. rewrite H2. reflexivity.
      * rewrite lookup_insert_ne by discriminate.
        rewrite !lookup_insert_eq. reflexivity.
  - intros Hf Hn h src.
    specialize (Hflag Hf). specialize (Hname Hn).
    unfold win_spout_create, win_spout_update, memset_senderName,
      strcpy_senderName.
    rewrite Hname, Hflag. unfold_M; cbn.
    eexists. split; [reflexivity |]. auto.
Qed.

(** ** The property panel *)

Lemma obs_properties_get_update f props p key :
  (∀ q, prop_name (f q) = prop_name q) →
  obs_properties_get (obs_property_update f props p) key
  = (if String.eqb key p then f else id) <$> obs_properties_get props key.
Proof.
  intros Hname. unfold obs_properties_get, obs_property_update.
  induction props as [| q props IH]; cbn.
  - destruct (String.eqb key p); reflexivity.
  - destruct (String.eqb (prop_name q) p) eqn:Hp;
      destruct (String.eqb (prop_name q) key) eqn:Hk;
      rewrite ?Hname, ?Hk; cbn; try exact IH.
    + apply String.eqb_eq in Hp, Hk. subst.
      rewrite String.eqb_refl. reflexivity.
    + apply String.eqb_eq in Hk. subst.
      rewrite Hp. reflexivity.
Qed.

Lemma obs_properties_get_add_strings list_p names : ∀ props key,
  obs_properties_get
    (foldl (λ ps name, obs_property_list_add_string ps list_p name name)
       props names) key
  = (if String.eqb key list_p then append_items (name_item <$> names)
     else id) <$> obs_properties_get props key.
Proof.
  induction names as [| name names IH]; intros props key; cbn [foldl].
  - destruct (obs_properties_get props key) as [q |];
      destruct (String.eqb key list_p); cbn; try reflexivity.
    unfold append_items. cbn. rewrite app_nil_r. destruct q; reflexivity.
  - rewrite IH. unfold obs_property_list_add_string.
    rewrite obs_properties_get_update by reflexivity.
    destruct (obs_properties_get props key) as [q |];
      destruct (String.eqb key list_p); cbn; try reflexivity.
    unfold append_items. cbn. rewrite <- app_assoc. reflexivity.
Qed.

Lemma fill_senders_loop_done h list_p : ∀ n index buffer props c,
  fill_senders_loop h n index buffer props list_p c
  = Done
      (foldl (λ ps name, obs_property_list_add_string ps list_p name name)
         props (listed_names h n index buffer))
      c ((λ i, Call_GetSenderName (index + Z.of_nat i)) <$> seq 0 n).
Proof.
  induction n as [| n IH]; intros index buffer props c;
    cbn [fill_senders_loop listed_names foldl]; unfold_M.
  - reflexivity.
  - rewrite IH. cbn [app seq fmap list_fmap]. rewrite Z.add_0_r.
    f_equal. f_equal.
    rewrite <- fmap_S_seq, <- list_fmap_compose.
    apply list_fmap_ext. intros i j _. cbn. f_equal. lia.
Qed.

Lemma fill_senders_done h stale ptr props list_p c :
  ptr ≠ NULL →
  fill_senders h stale ptr props list_p c
  = Done
      (foldl (λ ps name, obs_property_list_add_string ps list_p name name)
         (obs_property_list_clear props list_p)
         (listed_names h (Z.to_nat (GetSenderCount h)) 0 stale))
      c
      (Call_GetSenderCount
       :: ((λ i, Call_GetSenderName (Z.of_nat i))
             <$> seq 0 (Z.to_nat (GetSenderCount h)))).
Proof.
  intros Hptr. apply Z.eqb_neq in Hptr.
  unfold fill_senders; unfold_M. rewrite Hptr.
  destruct (Z.eqb_spec (GetSenderCount h) 0) as [Hzero | Hsome].
  - rewrite Hzero. reflexivity.
  - rewrite fill_senders_loop_done. reflexivity.
Qed.

Lemma length_listed_names h : ∀ n index buffer,
  length (listed_names h n index buffer) = n.
Proof.
  induction n as [| n IH]; intros index buffer; cbn; [| rewrite IH];
    reflexivity.
Qed.

Lemma listed_names_found h : ∀ n index buffer i sender,
  (i < n)%nat →
  GetSenderName h (index + Z.of_nat i) = Some sender →
  listed_names h n index buffer !! i = Some (text sender).
Proof.
  induction n as [| n IH]; intros index buffer i sender Hi Hfound;
    [lia |].
  cbn [listed_names]. destruct i as [| i].
  - rewrite Z.add_0_r in Hfound. rewrite Hfound. reflexivity.
  - cbn. apply IH; [lia |].
    rewrite <- Hfound. f_equal. lia.
Qed.

Lemma listed_names_first_missing h n index buffer :
  GetSenderName h index = None →
  listed_names h (S n) index buffer !! 0%nat = Some buffer.
Proof. intros Hnone. cbn. rewrite Hnone. reflexivity. Qed.

Lemma listed_names_missing h : ∀ n index buffer i,
  (S i < n)%nat →
  GetSenderName h (index + Z.of_nat (S i)) = None →
  listed_names h n index buffer !! S i
  = listed_names h n index buffer !! i.
Proof.
  induction n as [| n IH]; intros index buffer i Hi Hnone; [lia |].
  cbn [listed_names]. cbn [lookup list_lookup].
  set (b0 := match GetSenderName h index with
             | Some sender => text sender
             | None => buffer
             end).
  assert (Hnext : GetSenderName h (index + 1 + Z.of_nat i) = None)
    by (rewrite <- Hnone; f_equal; lia).
  destruct i as [| i].
  - destruct n as [| n]; [lia |].
    rewrite Z.add_0_r in Hnext.
    rewrite listed_names_first_missing by exact Hnext. reflexivity.
  - rewrite IH; [reflexivity | lia | exact Hnext].
Qed.

(** X21.  Filling the sender list through a library handle asks the
    directory for the count once and for the name at every index below it,
    in order.  The items of an earlier fill are dropped, the list ends with
    exactly one item per index, and no other property of the panel is
    changed. *)
Theorem fill_senders_one_item_per_index h stale ptr props list_p q c :
  ptr ≠ NULL →
  obs_properties_get props list_p = Some q →
  ∃ props' items,
    fill_senders h stale ptr props list_p c
    = Done props' c
        (Call_GetSenderCount
         :: ((λ i, Call_GetSenderName (Z.of_nat i))
               <$> seq 0 (Z.to_nat (GetSenderCount h))))
    ∧ list_items props' list_p = Some items
    ∧ length items = Z.to_nat (GetSenderCount h)
    ∧ (GetSenderCount h = 0 → items = [])
    ∧ ∀ key, key ≠ list_p →
        obs_properties_get props' key = obs_properties_get props key.
Proof.
  intros Hptr Hq. rewrite fill_senders_done by exact Hptr.
  eexists _, _. split; [reflexivity |].
  unfold list_items. rewrite obs_properties_get_add_strings.
  unfold obs_property_list_clear.
  rewrite obs_properties_get_update by reflexivity.
  rewrite String.eqb_refl, Hq. cbn.
  split; [reflexivity |]. split; [| split].
  - rewrite length_fmap. apply length_listed_names.
  - intros ->. reflexivity.
  - intros key Hkey. apply String.eqb_neq in Hkey.
    rewrite obs_properties_get_add_strings.
    rewrite obs_properties_get_update by reflexivity.
    rewrite Hkey. destruct (obs_properties_get props key); reflexivity.
Qed.

Lemma fill_senders_one_item_per_index_witness :
  4096 ≠ NULL
  ∧ obs_properties_get old_panel SPOUT_SENDER_LIST
    = Some {| prop_name := SPOUT_SENDER_LIST;
              prop_description := "Spout Senders";
              prop_type := OBS_PROPERTY_LIST; prop_modified := None;
              prop_items := [("gone", "gone")] |}
  ∧ ∃ props' items,
      fill_senders (two_cameras 60000 import_ok) "" 4096 old_panel
        SPOUT_SENDER_LIST fresh_instance
      = Done props' fresh_instance
          [Call_GetSenderCount; Call_GetSenderName 0; Call_GetSenderName 1]
      ∧ list_items props' SPOUT_SENDER_LIST = Some items
      ∧ length items = 2%nat.
Proof.
  assert (Hptr : 4096 ≠ NULL) by discriminate.
  split; [exact Hptr |]. split; [reflexivity |].
  destruct (fill_senders_one_item_per_index (two_cameras 60000 import_ok) ""
              4096 old_panel SPOUT_SENDER_LIST _ fresh_instance Hptr eq_refl)
    as (props' & items & Hrun & Hitems & Hlen & _).
  exists props', items. auto.
Defined.

(** X22.  The item at an index is the name of the sender at that index when
    the directory names it.  The result of [GetSenderName] is not tested:
    when a name is missing, the item repeats the one before it, and at index
    0 it is whatever the uninitialised buffer held. *)
Theorem fill_senders_repeats_on_missing_name h stale ptr props list_p q c :
  ptr ≠ NULL →
  obs_properties_get props list_p = Some q →
  ∃ props' t items,
    fill_senders h stale ptr props list_p c = Done props' c t
    ∧ list_items props' list_p = Some items
    ∧ (∀ i sender,
         (i < Z.to_nat (GetSenderCount h))%nat →
         GetSenderName h (Z.of_nat i) = Some sender →
         items !! i = Some (text sender, text sender))
    ∧ (0 < GetSenderCount h → GetSenderName h 0 = None →
         items !! 0%nat = Some (stale, stale))
    ∧ (∀ i, (S i < Z.to_nat (GetSenderCount h))%nat →
            GetSenderName h (Z.of_nat (S i)) = None →
            items !! S i = items !! i).
Proof.
  intros Hptr Hq. rewrite fill_senders_done by exact Hptr.
  eexists _, _, _. split; [reflexivity |].
  unfold list_items. rewrite obs_properties_get_add_strings.
  unfold obs_property_list_clear.
  rewrite obs_properties_get_update by reflexivity.
  rewrite String.eqb_refl, Hq. cbn.
  split; [reflexivity |]. split; [| split].
  - intros i sender Hi Hfound. rewrite list_lookup_fmap.
    rewrite (listed_names_found h _ 0 stale i sender Hi) by exact Hfound.
    reflexivity.
  - intros Hpos Hnone. rewrite list_lookup_fmap.
    destruct (Z.to_nat (GetSenderCount h)) as [| n] eqn:Hn; [lia |].
    rewrite listed_names_first_missing by exact Hnone. reflexivity.
  - intros i Hi Hnone. rewrite !list_lookup_fmap.
    rewrite listed_names_missing; [reflexivity | exact Hi | exact Hnone].
Qed.

Lemma fill_senders_repeats_on_missing_name_witness :
  4096 ≠ NULL
  ∧ GetSenderName gap_directory 1 = None
  ∧ ∃ props' t items,
      fill_senders gap_directory "" 4096 old_panel SPOUT_SENDER_LIST
        fresh_instance
      = Done props' fresh_instance t
      ∧ list_items props' SPOUT_SENDER_LIST = Some items
      ∧ items !! 0%nat = Some ("camA", "camA")
      ∧ items !! 1%nat = items !! 0%nat
      ∧ items !! 2%nat = Some ("camB", "camB").
Proof.
  assert (Hptr : 4096 ≠ NULL) by discriminate.
  split; [exact Hptr |]. split; [reflexivity |].
  destruct (fill_senders_repeats_on_missing_name gap_directory ""
              4096 old_panel SPOUT_SENDER_LIST _ fresh_instance Hptr eq_refl)
    as (props' & t & items & Hrun & Hitems & Hfound & _ & Hmissing).
  exists props', t, items.
  split; [exact Hrun |]. split; [exact Hitems |].
  split; [apply (Hfound 0%nat camA); [cbn; lia | reflexivity] |].
  split; [apply (Hmissing 0%nat); [cbn; lia | reflexivity] |].
  apply (Hfound 2%nat camB); [cbn; lia | reflexivity].
Defined.

(** The panel before the list is filled. *)
Lemma win_spout_properties_unfold h (obs_module_text : string → string)
    stale c :
  win_spout_properties h obs_module_text stale c
  = fill_senders h stale (spoutptr c)
      [{| prop_name := USE_FIRST_AVAILABLE_SENDER;
          prop_description := obs_module_text "UseFirstAvailableSender";
          prop_type := OBS_PROPERTY_BOOL;
          prop_modified := Some modified_on_sender_list_selected;
          prop_items := [] |};
       {| prop_name := CUSTOM_SPOUT_NAME;
          prop_description := obs_module_text "CustomSpoutName";
          prop_type := OBS_PROPERTY_TEXT; prop_modified := None;
          prop_items := [] |};
       {| prop_name := SPOUT_SENDER_LIST;
          prop_description := obs_module_text "SpoutSenders";
          prop_type := OBS_PROPERTY_LIST; prop_modified := None;
          prop_items := [] |}]
      SPOUT_SENDER_LIST c.
Proof.
  unfold win_spout_properties; unfold_M. cbn.
  destruct (fill_senders _ _ _ _ _ c); reflexivity.
Qed.

(** X23.  The panel has three properties: the check box, the name field
    and the sender list, which holds one item per counted sender.  The
    second registration of a callback is made on the check box again and
    replaces the first: the check box carries the callback of the sender
    list, and neither the list nor the name field carries any.  Without a
    library handle, building the panel goes through the null handle. *)
Theorem properties_panel_wiring h obs_module_text stale c :
  (spoutptr c ≠ NULL →
   ∃ props t items,
     win_spout_properties h obs_module_text stale c = Done props c t
     ∧ attempts t = 1%nat
     ∧ (prop_type <$> obs_properties_get props USE_FIRST_AVAILABLE_SENDER)
       = Some OBS_PROPERTY_BOOL
     ∧ (prop_type <$> obs_properties_get props CUSTOM_SPOUT_NAME)
       = Some OBS_PROPERTY_TEXT
     ∧ (prop_type <$> obs_properties_get props SPOUT_SENDER_LIST)
       = Some OBS_PROPERTY_LIST
     ∧ modified_of props USE_FIRST_AVAILABLE_SENDER
       = Some (Some modified_on_sender_list_selected)
     ∧ modified_of props CUSTOM_SPOUT_NAME = Some None
     ∧ modified_of props SPOUT_SENDER_LIST = Some None
     ∧ list_items props SPOUT_SENDER_LIST = Some items
     ∧ length items = Z.to_nat (GetSenderCount h))
  ∧ (spoutptr c = NULL →
     win_spout_properties h obs_module_text stale c
     = Fault NullDereference).
Proof.
  rewrite win_spout_properties_unfold. split.
  - intros Hptr. rewrite fill_senders_done by exact Hptr.
    eexists _, _, _. split; [reflexivity |].
    split.
    { unfold attempts. cbn. rewrite decide_True by reflexivity. cbn.
      f_equal. induction (seq 0 _) as [| i l IH]; [reflexivity |].
      cbn. rewrite decide_False by discriminate. exact IH. }
    unfold modified_of, list_items.
    rewrite !obs_properties_get_add_strings.
    unfold obs_property_list_clear.
    rewrite !obs_properties_get_update by reflexivity. cbn.
    repeat (split; [reflexivity |]).
    rewrite length_fmap. apply length_listed_names.
  - intros Hptr. unfold fill_senders. apply Z.eqb_eq in Hptr.
    rewrite Hptr. reflexivity.
Qed.

(** X24.  On the panel as built, changing the selection of the sender list
    or the name field runs no callback, and toggling the check box runs
    the callback of the sender list.  So while a selection is stored,
    ticking "use first available" is undone at once, the selected name
    being configured again; and with no selection stored, unticking it
    leaves the configured name in place. *)
Theorem check_box_runs_list_callback h obs_module_text stale c props t
    settings :
  win_spout_properties h obs_module_text stale c = Done props c t →
  obs_property_modified props SPOUT_SENDER_LIST settings = (false, settings)
  ∧ obs_property_modified props CUSTOM_SPOUT_NAME settings
    = (false, settings)
  ∧ obs_property_modified props USE_FIRST_AVAILABLE_SENDER settings
    = on_sender_list_selected settings
  ∧ (obs_data_get_string settings SPOUT_SENDER_LIST ≠ "" →
       let ticked :=
         obs_data_set_bool settings USE_FIRST_AVAILABLE_SENDER true in
       let settings' :=
         snd (obs_property_modified props USE_FIRST_AVAILABLE_SENDER ticked)
       in
       obs_data_get_bool settings' USE_FIRST_AVAILABLE_SENDER = false
       ∧ obs_data_get_string settings' CUSTOM_SPOUT_NAME
         = obs_data_get_string settings SPOUT_SENDER_LIST)
  ∧ (obs_data_get_string settings SPOUT_SENDER_LIST = "" →
       let unticked :=
         obs_data_set_bool settings USE_FIRST_AVAILABLE_SENDER false in
       snd (obs_property_modified props USE_FIRST_AVAILABLE_SENDER unticked)
       = unticked).
Proof.
  rewrite win_spout_properties_unfold.
  destruct (Z.eq_dec (spoutptr c) NULL) as [Hptr | Hptr].
  { unfold fill_senders. apply Z.eqb_eq in Hptr. rewrite Hptr.
    discriminate. }
  rewrite fill_senders_done by exact Hptr. intros [= <- <-].
  assert (Hflag : ∀ s,
            obs_property_modified
              (foldl (λ ps name,
                        obs_property_list_add_string ps SPOUT_SENDER_LIST
                          name name)
                 (obs_property_list_clear
                    [{| prop_name := USE_FIRST_AVAILABLE_SENDER;
                        prop_description :=
                          obs_module_text "UseFirstAvailableSender";
                        prop_type := OBS_PROPERTY_BOOL;
                        prop_modified :=
                          Some modified_on_sender_list_selected;
                        prop_items := [] |};
                     {| prop_name := CUSTOM_SPOUT_NAME;
                        prop_description :=
                          obs_module_text "CustomSpoutName";
                        prop_type := OBS_PROPERTY_TEXT;
                        prop_modified := None; prop_items := [] |};
                     {| prop_name := SPOUT_SENDER_LIST;
                        prop_description := obs_module_text "SpoutSenders";
                        prop_type := OBS_PROPERTY_LIST;
                        prop_modified := None; prop_items := [] |}]
                    SPOUT_SENDER_LIST)
                 (listed_names h (Z.to_nat (GetSenderCount h)) 0 stale))
              USE_FIRST_AVAILABLE_SENDER s
            = on_sender_list_selected s).
  { intros s. unfold obs_property_modified.
    rewrite obs_properties_get_add_strings. unfold obs_property_list_clear.
    rewrite obs_properties_get_update by reflexivity. reflexivity. }
  unfold obs_property_modified at 1 2.
  rewrite !obs_properties_get_add_strings.
  split; [reflexivity |]. split; [reflexivity |].
  split; [apply Hflag |]. split.
  - intros Hsel. cbn zeta. rewrite Hflag.
    assert (Hkept : obs_data_get_string
                      (obs_data_set_bool settings
                         USE_FIRST_AVAILABLE_SENDER true) SPOUT_SENDER_LIST
                    = obs_data_get_string settings SPOUT_SENDER_LIST).
    { unfold obs_data_set_bool.
      rewrite get_string_set_other by discriminate. reflexivity. }
    rewrite on_sender_list_selected_some by (rewrite Hkept; exact Hsel).
    cbn [snd]. rewrite Hkept. split; [apply get_bool_set_bool |].
    unfold obs_data_set_bool at 1.
    rewrite get_string_set_other by discriminate.
    apply get_string_set_string.
  - intros Hsel. cbn zeta. rewrite Hflag.
    rewrite on_sender_list_selected_none; [reflexivity |].
    unfold obs_data_set_bool.
    rewrite get_string_set_other by discriminate. exact Hsel.
Qed.

Lemma check_box_runs_list_callback_witness :
  ∃ props t,
    win_spout_properties (two_cameras 60000 import_ok) en_US ""
      fresh_instance
    = Done props fresh_instance t
    ∧ obs_property_modified props SPOUT_SENDER_LIST camB_selected
      = (false, camB_selected)
    ∧ obs_data_get_bool
        (snd (obs_property_modified props USE_FIRST_AVAILABLE_SENDER
                (obs_data_set_bool camB_selected
                   USE_FIRST_AVAILABLE_SENDER true)))
        USE_FIRST_AVAILABLE_SENDER
      = false.
Proof.
  eexists _, _. split; [vm_compute; reflexivity |].
  match goal with
  | |- context [obs_property_modified ?props _ _] =>
      destruct (check_box_runs_list_callback
                  (two_cameras 60000 import_ok) en_US "" fresh_instance
                  props
                  [Call_GetSenderCount; Call_GetSenderName 0;
                   Call_GetSenderName 1] camB_selected)
        as (Hlist & _ & _ & Hticked & _); [vm_compute; reflexivity |]
  end.
  split; [exact Hlist |].
  apply Hticked. vm_compute. discriminate.
Defined.
